(** * FinWalletCLI: the wallet and the menu of [backend/main.py]

    A shallow embedding of class [Wallet] (balance bookkeeping, [add_entry],
    [edit_entry], [search_entries]) and of class [Menu] ([add_option],
    [option], [show], the body of the loop of [start]), and the properties
    of the ledger and of the dialogue.

    Modelling choices.
    - A Python [str] is the list of its code points, so that [len], [==] and
      the classes of [re] are the ones of Python.
    - Amounts and the balance are integers, and the arithmetic is exact.
      This is the arithmetic of the code on the Python [int]s of callers such
      as the repository's tests, as long as every amount, balance and sum
      stays inside the 64-bit range of the [amount] column.  The binary64
      numbers the menu makes with [float] (their rounding, their NaN) and
      what numpy does outside the 64-bit range are not modelled: a property
      that rests on exact sums says so.
    - The [DataFrame] is the list of its rows; the index label of a row is its
      position, which is what [to_csv]/[read_csv] and
      [concat(..., ignore_index=True)] maintain.  Writing a cell succeeds
      whenever the label exists, as it does with pandas 2; that pandas 3
      holds the dates of a table read back from the file in a column of text,
      to which it refuses a [Timestamp], is not modelled.
    - A method is a computation in a monad that threads the wallet, collects
      what is printed, and may raise a Python exception: an exception keeps
      the mutations made before it, as in Python.  What goes to the log file
      is left out.
    - The two calls of pandas whose answer depends on more than the rows,
      [pd.to_datetime] and the comparison of the column of dates with a
      text, are parameters of the methods; [today] is what the clock
      reads. *)

From Stdlib Require Import ZArith NArith Lia String Ascii.
From stdpp Require Import base decidable option list numbers.

Local Open Scope Z_scope.

(** ** Python strings *)

Definition str : Type := list N.

(** ASCII text of a literal, one code point per character. *)
Definition py (s : string) : str :=
  (λ c : ascii, N_of_ascii c) <$> list_ascii_of_string s.

(** Decoding of a UTF-8 literal (one to four bytes per code point); bytes that
    do not start a well-formed sequence are kept as they are. *)
Fixpoint utf8_decode (fuel : nat) (bs : list N) : str :=
  match fuel with
  | O => []
  | S fuel =>
      match bs with
      | [] => []
      | b0 :: rest =>
          if (b0 <? 128)%N then b0 :: utf8_decode fuel rest
          else if ((192 <=? b0) && (b0 <? 224))%N then
            match rest with
            | b1 :: rest' =>
                ((b0 - 192) * 64 + (b1 - 128))%N :: utf8_decode fuel rest'
            | _ => bs
            end
          else if ((224 <=? b0) && (b0 <? 240))%N then
            match rest with
            | b1 :: b2 :: rest' =>
                ((b0 - 224) * 4096 + (b1 - 128) * 64 + (b2 - 128))%N
                  :: utf8_decode fuel rest'
            | _ => bs
            end
          else
            match rest with
            | b1 :: b2 :: b3 :: rest' =>
                ((b0 - 240) * 262144 + (b1 - 128) * 4096
                 + (b2 - 128) * 64 + (b3 - 128))%N
                  :: utf8_decode fuel rest'
            | _ => bs
            end
      end
  end.

Definition utf8 (s : string) : str :=
  let bs := py s in utf8_decode (length bs) bs.

(** The two categories, ["Доход"] and ["Расход"]. *)
Definition INCOME : str := [1044; 1086; 1093; 1086; 1076]%N.
Definition EXPENSE : str := [1056; 1072; 1089; 1093; 1086; 1076]%N.

(** Truthiness of an optional [str] argument: [None] and the empty string
    are falsy. *)
Definition truthy (s : option str) : bool :=
  match s with
  | Some (_ :: _) => true
  | _ => false
  end.

(** The text of an argument that passed the truthiness test. *)
Definition text (s : option str) : str :=
  match s with
  | Some s => s
  | None => []
  end.

(** Truthiness of an optional number: [None] and [0] are falsy. *)
Definition truthy_num (a : option Z) : bool :=
  match a with
  | Some a => negb (a =? 0)
  | None => false
  end.

(** ** The date pattern

    [DATE_PATTERN = r"\d{4}-\d{2}-\d{2}"], used with [re.match]: the pattern
    is matched at the start of the string and the rest is ignored.  In a
    pattern over [str], [\d] is any decimal digit of Unicode (category Nd),
    not only [0-9]: the digits of a script are ten consecutive code points,
    listed here by their zero (Unicode 14.0, the table of Python 3.11). *)

Definition DECIMAL_ZEROS : list N :=
  [ 48; 1632; 1776; 1984; 2406; 2534; 2662; 2790;
    2918; 3046; 3174; 3302; 3430; 3558; 3664; 3792;
    3872; 4160; 4240; 6112; 6160; 6470; 6608; 6784;
    6800; 6992; 7088; 7232; 7248; 42528; 43216; 43264;
    43472; 43504; 43600; 44016; 65296; 66720; 68912; 69734;
    69872; 69942; 70096; 70384; 70736; 70864; 71248; 71360;
    71472; 71904; 72016; 72784; 73040; 73120; 92768; 92864;
    93008; 120782; 120792; 120802; 120812; 120822; 123200; 123632;
    125264; 130032 ]%N.

Definition is_digit (c : N) : bool :=
  existsb (λ zero, (zero <=? c) && (c <? zero + 10))%N DECIMAL_ZEROS.

Definition is_ascii_digit (c : N) : bool := ((48 <=? c) && (c <=? 57))%N.
Definition is_hyphen (c : N) : bool := (c =? 45)%N.

Definition match_DATE_PATTERN (s : str) : bool :=
  match s with
  | y1 :: y2 :: y3 :: y4 :: h1 :: m1 :: m2 :: h2 :: d1 :: d2 :: _ =>
      is_digit y1 && is_digit y2 && is_digit y3 && is_digit y4
      && is_hyphen h1 && is_digit m1 && is_digit m2
      && is_hyphen h2 && is_digit d1 && is_digit d2
  | _ => false
  end.

(** ** Rows and the wallet *)

Record Date := mkDate { year : Z; month : Z; day : Z }.

#[global] Instance Date_eq_dec : EqDecision Date.
Proof. solve_decision. Defined.

(** What a cell of the [date] column holds. *)
Inductive DateCell :=
| Timestamp (d : Date)  (* pd.to_datetime(...): the day, at midnight *)
| DateOnly (d : Date)   (* pd.Timestamp.now().date(): a datetime.date *)
| DateText (s : str).   (* a cell read back from the csv file *)

#[global] Instance DateCell_eq_dec : EqDecision DateCell.
Proof. solve_decision. Defined.

Record Row := mkRow {
  date : DateCell;
  category : str;
  amount : Z;
  description : str
}.

#[global] Instance Row_eq_dec : EqDecision Row.
Proof. solve_decision. Defined.

(** The columns, under names that the arguments of the methods do not hide. *)
Abbreviation col_date := date (only parsing).
Abbreviation col_category := category (only parsing).
Abbreviation col_amount := amount (only parsing).
Abbreviation col_description := description (only parsing).

Definition with_date (v : DateCell) (r : Row) : Row :=
  mkRow v (category r) (amount r) (description r).
Definition with_category (v : str) (r : Row) : Row :=
  mkRow (date r) v (amount r) (description r).
Definition with_amount (v : Z) (r : Row) : Row :=
  mkRow (date r) (category r) v (description r).
Definition with_description (v : str) (r : Row) : Row :=
  mkRow (date r) (category r) (amount r) v.

(** [data] and [balance] are the attributes of the object; [stored] is the
    table held by the file [self.filename] ([None]: no such file). *)
Record Wallet := mkWallet {
  data : list Row;
  balance : Z;
  stored : option (list Row)
}.

Definition CATEGORIES : list str := [INCOME; EXPENSE].
Definition MAX_DESC_LENGTH : nat := 64.

(** ** Effects *)

Inductive Exn := TypeError | KeyError | ValueError.

#[global] Instance Exn_eq_dec : EqDecision Exn.
Proof. solve_decision. Defined.

(** The texts the wallet prints. *)
Inductive Message :=
| InsufficientFunds  (* decrease_balance: not enough money on the wallet *)
| CheckData          (* add_entry: check the data you entered *)
| RequiredFields     (* add_entry: required fields were not filled in *)
| BadRecordNumber    (* edit_entry: the record number is incorrect *)
| CheckInput.        (* search_entries: check the data you entered *)

Inductive Outcome (A : Type) :=
| Return (a : A)
| Raise (e : Exn).
Arguments Return {A} a.
Arguments Raise {A} e.

Definition M (A : Type) : Type := Wallet → Outcome A * Wallet * list Message.

#[global] Instance M_ret : MRet M := λ A a w, (Return a, w, []).

#[global] Instance M_bind : MBind M := λ A B f m w,
  match m w with
  | (Return a, w1, out1) =>
      let '(r, w2, out2) := f a w1 in (r, w2, out1 ++ out2)
  | (Raise e, w1, out1) => (Raise e, w1, out1)
  end.

Definition raise {A} (e : Exn) : M A := λ w, (Raise e, w, []).
Definition get : M Wallet := λ w, (Return w, w, []).
Definition put (w : Wallet) : M unit := λ _, (Return tt, w, []).
Definition print (msg : Message) : M unit := λ w, (Return tt, w, [msg]).

(** [try: body except (catches): handler]. *)
Definition try_except {A} (catches : list Exn) (body handler : M A) : M A :=
  λ w,
    match body w with
    | (Raise e, w1, out1) =>
        if bool_decide (e ∈ catches)
        then let '(r, w2, out2) := handler w1 in (r, w2, out1 ++ out2)
        else (Raise e, w1, out1)
    | res => res
    end.

(** Calling the result of [dict.get]: calling [None] is a [TypeError]. *)
Definition call {A B} (f : option (A → M B)) (a : A) : M B :=
  match f with
  | Some f => f a
  | None => raise TypeError
  end.

Definition set_balance_to (b : Z) : M unit :=
  w ← get; put (mkWallet (data w) b (stored w)).

Definition set_data (rows : list Row) : M unit :=
  w ← get; put (mkWallet rows (balance w) (stored w)).

(** [self.data.loc[index, ...]]: a label that is not in the index is a
    [KeyError]. *)
Definition loc (index : Z) : M Row :=
  w ← get;
  if bool_decide (0 ≤ index) then
    match data w !! Z.to_nat index with
    | Some row => mret row
    | None => raise KeyError
    end
  else raise KeyError.

(** [self.data.loc[index, column] = value], for a label that is in the index
    (the only use the wallet makes of it). *)
Definition loc_set (index : Z) (update : Row → Row) : M unit :=
  row ← loc index;
  w ← get;
  set_data (<[Z.to_nat index := update row]> (data w)).

(** ** Class [Wallet] *)

Definition Zsum (l : list Z) : Z := foldr Z.add 0 l.

(** [self.data[self.data["category"] == c]["amount"].sum()], the exact sum:
    that of pandas on a column of integers, as long as it stays inside the
    64-bit range. *)
Definition amount_sum (c : str) (rows : list Row) : Z :=
  Zsum (amount <$> filter (λ r, category r = c) rows).

Definition income (rows : list Row) : Z := amount_sum INCOME rows.
Definition expenses (rows : list Row) : Z := amount_sum EXPENSE rows.

(** [__load_data]: the table of the file, or a new empty one. *)
Definition load_data (file : option (list Row)) : list Row :=
  match file with
  | Some rows => rows
  | None => []
  end.

(** [__set_balance] *)
Definition set_balance : M unit :=
  w ← get;
  set_balance_to (income (data w) - expenses (data w)).

(** [__init__], given what the file holds. *)
Definition Wallet_init (file : option (list Row)) : Wallet :=
  let rows := load_data file in
  (set_balance (mkWallet rows 0 file)).1.2.

(** [get_balance] *)
Definition get_balance : M Z := w ← get; mret (balance w).

(** [__save_data] *)
Definition save_data : M unit :=
  w ← get; put (mkWallet (data w) (balance w) (Some (data w))).

(** [increase_balance]: [self.balance += amount] is a [TypeError] when the
    amount is [None]; on integers inside the 64-bit range it is the exact
    sum. *)
Definition increase_balance (amount : option Z) : M bool :=
  match amount with
  | Some amount =>
      w ← get;
      set_balance_to (balance w + amount);;
      mret true
  | None => raise TypeError
  end.

(** [decrease_balance] *)
Definition decrease_balance (amount : option Z) : M bool :=
  match amount with
  | Some amount =>
      w ← get;
      let fake_balance := balance w - amount in
      if bool_decide (0 ≤ fake_balance) then
        set_balance_to fake_balance;;
        mret true
      else
        print InsufficientFunds;;
        mret false
  | None => raise TypeError
  end.

(** [BALANCE_CHANGERS.get] *)
Definition BALANCE_CHANGERS (category : str) : option (option Z → M bool) :=
  if decide (category = INCOME) then Some increase_balance
  else if decide (category = EXPENSE) then Some decrease_balance
  else None.

(** [__change_amount]; the products and sums are the exact ones, those of
    the code on integers inside the 64-bit range. *)
Definition change_amount (prev_category : str) (index : Z) (amount : Z)
  : M bool :=
  row ← loc index;
  let category := col_category row in
  row' ← loc index;
  let prev_amount :=
    col_amount row'
    * (-1) ^ (if decide (prev_category = category) then 1 else 0) in
  w ← get;
  let fake_balance :=
    if decide (category = EXPENSE)
    then balance w - prev_amount - amount
    else balance w + prev_amount + amount in
  if bool_decide (0 ≤ fake_balance) then
    set_balance_to fake_balance;;
    mret true
  else mret false.

(** [__change_category] *)
Definition change_category (category : str) (index : Z) (amount : option Z)
  : M bool :=
  row ← loc index;
  let prev_amount := col_amount row in
  let curr_amount :=
    match amount with
    | Some a => if truthy_num amount then a else prev_amount
    | None => prev_amount
    end in
  w ← get;
  let fake_balance :=
    if decide (category = EXPENSE)
    then balance w - prev_amount - curr_amount
    else balance w + prev_amount + curr_amount in
  if bool_decide (0 ≤ fake_balance) then
    (if negb (truthy_num amount) then set_balance_to fake_balance
     else mret tt);;
    mret true
  else mret false.

Section Methods.

(** [pd.to_datetime(date, format="%Y-%m-%d")]: the day the text denotes, or
    [None] when pandas raises [ValueError]. *)
Variable to_datetime : str → option Date.

(** [self.data["date"] == date]: the boolean mask pandas computes for the
    column of dates, or [None] when the comparison raises [ValueError]. *)
Variable date_eq : list DateCell → str → option (list bool).

Definition parse_date (date : str) : M DateCell :=
  match to_datetime date with
  | Some d => mret (Timestamp d)
  | None => raise ValueError
  end.

(** [add_entry]; [today] is what [pd.Timestamp.now().date()] reads.  The row
    is built only after the balance changer returned [True], which it does
    on a number only. *)
Definition add_entry (category date : option str) (amount : option Z)
    (description : option str) (today : Date) : M unit :=
  try_except [TypeError]
    (ok ←
       (if truthy category && truthy description
           && bool_decide (length (text description) < MAX_DESC_LENGTH)%nat
        then call (BALANCE_CHANGERS (text category)) amount
        else mret false) : M bool;
     if (ok : bool) then
       cell ←
         match date with
         | Some s =>
             if match_DATE_PATTERN s then parse_date s
             else mret (DateOnly today)
         | None => mret (DateOnly today)
         end : M DateCell;
       match amount with
       | Some a =>
           w ← get;
           set_data (data w ++ [mkRow cell (text category) a (text description)]);;
           save_data
       | None => raise TypeError
       end
     else print CheckData)
    (print RequiredFields).

(** [edit_entry] *)
Definition edit_entry (index : Z) (category date : option str)
    (amount : option Z) (description : option str) : M unit :=
  try_except [KeyError]
    (_ ← loc index;
     row ← loc index;
     let prev_category := col_category row in
     (if truthy category && bool_decide (text category ∈ CATEGORIES) then
        cur ← loc index;
        if bool_decide (text category ≠ col_category cur) then
          ok ← change_category (text category) index amount;
          if (ok : bool) then loc_set index (with_category (text category))
          else mret tt
        else mret tt
      else mret tt);;
     (if truthy date && match_DATE_PATTERN (text date) then
        cell ← parse_date (text date);
        loc_set index (with_date cell)
      else mret tt);;
     match amount with
     | Some a =>
         if truthy_num amount then
           ok ← change_amount prev_category index a;
           if (ok : bool) then loc_set index (with_amount a) else mret tt
         else mret tt
     | None => mret tt
     end;;
     (if truthy description
         && bool_decide (length (text description) < MAX_DESC_LENGTH)%nat
      then loc_set index (with_description (text description))
      else mret tt);;
     save_data)
    (print BadRecordNumber).

(** A [DataFrame] handed back by a search: the rows with their labels. *)
Definition Frame : Type := list (nat * Row).

(** [self.data[mask]] *)
Definition select (rows : list Row) (mask : list bool) : Frame :=
  (λ x, (x.1, x.2.1)) <$>
    filter (λ x, x.2.2 = true) (imap (λ i x, (i, x)) (zip rows mask)).

(** [search_entries]; the result [None] is Python's [None], returned when
    no criterion is supplied or after an error was reported. *)
Definition search_entries (index : option Z) (category date : option str)
    (amount : option Z) : M (option Frame) :=
  try_except [KeyError; ValueError]
    (w ← get;
     match index with
     | Some i =>
         row ← loc i;
         mret (Some [(Z.to_nat i, row)] : option Frame)
     | None =>
         if truthy category then
           mret (Some (select (data w)
             ((λ r, bool_decide (col_category r = text category))
                <$> data w)))
         else if truthy date then
           match date_eq (col_date <$> data w) (text date) with
           | Some mask => mret (Some (select (data w) mask))
           | None => raise ValueError
           end
         else
           match amount with
           | Some a =>
               if truthy_num amount then
                 mret (Some (select (data w)
                   ((λ r, bool_decide (col_amount r = a)) <$> data w)))
               else mret None
           | None => mret None
           end
     end)
    (print CheckInput;; mret None).

End Methods.

(** ** The pandas calls, on the inputs the wallet gives them *)

Definition digit (c : N) : Z := Z.of_N c - 48.

Definition is_leap (y : Z) : bool :=
  ((y mod 4 =? 0) && negb (y mod 100 =? 0)) || (y mod 400 =? 0).

Definition days_in_month (y m : Z) : Z :=
  if m =? 2 then (if is_leap y then 29 else 28)
  else if (m =? 4) || (m =? 6) || (m =? 9) || (m =? 11) then 30
  else 31.

(** [pd.to_datetime(s, format="%Y-%m-%d")] on a text that starts as
    [DATE_PATTERN] asks (the wallet parses no other): the whole text must be
    the ten characters, in ASCII digits, of a day of the calendar; anything
    else is a [ValueError].  The years are taken from 1 to 9999: what pandas
    makes of the year 0000, and of a year too far from now for its
    [Timestamp], depends on its version. *)
Definition strptime_Ymd (s : str) : option Date :=
  match s with
  | [y1; y2; y3; y4; h1; m1; m2; h2; d1; d2] =>
      if forallb is_ascii_digit [y1; y2; y3; y4; m1; m2; d1; d2]
         && is_hyphen h1 && is_hyphen h2 then
        let y := 1000 * digit y1 + 100 * digit y2 + 10 * digit y3 + digit y4 in
        let m := 10 * digit m1 + digit m2 in
        let d := 10 * digit d1 + digit d2 in
        if (1 <=? y) && (1 <=? m) && (m <=? 12)
           && (1 <=? d) && (d <=? days_in_month y m)
        then Some (mkDate y m d)
        else None
      else None
  | _ => None
  end.

(** [self.data["date"] == date] on a column that pandas holds as Python
    objects or as text, not as [datetime64]: the cells are compared one by
    one with Python's [==], which holds between two equal texts and never
    between a text and a [Timestamp] or a [datetime.date].  (A column of
    dtype [datetime64], made of [Timestamp]s only, is compared otherwise:
    pandas parses the text.) *)
Definition text_date_eq (cells : list DateCell) (d : str) : option (list bool) :=
  Some ((λ c, bool_decide (c = DateText d)) <$> cells).

(** ** Class [Menu]

    The menu is the list of its options.  It is written for any actions:
    [St] is what the actions work on (for the menu of the program, the
    wallet), [V] the values the answers are converted to, [R] what an
    action gives back, [Pr] what it prints.  Standard input is the list of
    the lines still to be read. *)

Section Menu.

Context {St V R Pr : Type}.

(** An entry of [args]: [{label: to_type}], a dictionary from the text of
    the prompt to the conversion; a conversion gives [None] when it raises
    [ValueError]. *)
Definition Dict : Type := list (str * (str → option V)).

(** An element of [params]: the dictionary it starts as, or the value that
    replaced it, [PValue None] being Python's [None]. *)
Inductive Param :=
| PDict (d : Dict)
| PValue (v : option V).

(** A callable that has a signature: the number of its parameters, which
    is what [len(inspect.signature(action).parameters)] reads, and what a
    call does; the result [None] is Python's [None]. *)
Record Action := mkAction {
  arity : nat;
  act : list Param → St → Outcome (option R) * St * list Pr
}.

(** An option of the menu: [(label, action, args)]. *)
Record Entry := mkEntry {
  label : str;
  action : Action;
  args : list Param
}.

(** The exceptions of the menu: those of the actions and the conversions,
    and three more. *)
Inductive MenuExn :=
| Inner (e : Exn)
| IndexError
| AttributeError
| EOFError.

Inductive MenuOutcome (A : Type) :=
| MReturn (a : A)
| MRaise (e : MenuExn).

(** What appears on the screen. *)
Inductive Printed :=
| Numbered (number : nat) (text_ : str)  (* show: "{number}. {label}" *)
| AskChoice                              (* start: choose an item *)
| Ask (param : str)                      (* option: enter the parameter *)
| CheckEntered                           (* option: check what you entered *)
| ChooseCorrect                          (* start: choose a correct item *)
| Result (r : R)                         (* start: the result of the action *)
| ByAction (o : Pr).                      (* printed by the action *)

(** [add_option] *)
Definition add_option (options : list Entry) (label : str) (action : Action)
    (args : option (list Param)) : list Entry :=
  let args := match args with Some args => args | None => [] end in
  options ++ [mkEntry label action args].

(** [l[i]] for a Python list: a negative index counts from the end. *)
Definition getitem {A} (l : list A) (i : Z) : option A :=
  if bool_decide (0 ≤ i) then l !! Z.to_nat i
  else if bool_decide (- Z.of_nat (length l) ≤ i)
       then l !! Z.to_nat (Z.of_nat (length l) + i)
       else None.

(** [sum(1 for el in params if el is None)] *)
Definition is_None (p : Param) : bool :=
  match p with
  | PValue None => true
  | _ => false
  end.

Definition count_None (params : list Param) : nat :=
  length (filter (λ p, is_None p = true) params).

(** The inner loop of [option], over the items of one dictionary; [cur] is
    [params[el]]. *)
Fixpoint ask_items (items : Dict) (cur : Param) (stdin : list str)
    (out : list Printed) : (MenuExn + Param) * list str * list Printed :=
  match items with
  | [] => (inr cur, stdin, out)
  | (param, to_type) :: items =>
      match stdin with
      | [] => (inl EOFError, [], out ++ [Ask param])
      | value :: stdin =>
          match value with
          | [] => ask_items items (PValue None) stdin (out ++ [Ask param])
          | _ =>
              match to_type value with
              | Some v =>
                  ask_items items (PValue (Some v)) stdin (out ++ [Ask param])
              | None => (inl (Inner ValueError), stdin, out ++ [Ask param])
              end
          end
      end
  end.

(** The outer loop of [option]: [for el in range(argcount)], at [el], with
    [todo] rounds to go. *)
Fixpoint ask_params (todo el : nat) (params : list Param)
    (stdin : list str) (out : list Printed)
  : (MenuExn + list Param) * list str * list Printed :=
  match todo with
  | O => (inr params, stdin, out)
  | S todo =>
      match params !! el with
      | None => (inl IndexError, stdin, out)
      | Some (PValue _) => (inl AttributeError, stdin, out)
      | Some (PDict d) =>
          match ask_items d (PDict d) stdin out with
          | (inl e, stdin, out) => (inl e, stdin, out)
          | (inr p, stdin, out) =>
              ask_params todo (S el) (<[el:=p]> params) stdin out
          end
      end
  end.

(** The [except ValueError] of [option]. *)
Definition except_ValueError (e : MenuExn) (s : St) (stdin : list str)
    (out : list Printed)
  : MenuOutcome (option R) * St * list str * list Printed :=
  match e with
  | Inner ValueError => (MReturn _ None, s, stdin, out ++ [CheckEntered])
  | _ => (MRaise _ e, s, stdin, out)
  end.

(** [option] *)
Definition Menu_option (options : list Entry) (number : Z)
    (stdin : list str) (s : St)
  : MenuOutcome (option R) * St * list str * list Printed :=
  match getitem options number with
  | None => (MRaise _ IndexError, s, stdin, [])
  | Some option_ =>
      let argcount := arity (action option_) in
      let params := args option_ in
      let asked :=
        if bool_decide (params ≠ [])
           && bool_decide (count_None params ≠ argcount)
        then ask_params argcount 0 params stdin []
        else (inr params, stdin, []) in
      match asked with
      | (inl e, stdin, out) => except_ValueError e s stdin out
      | (inr params, stdin, out) =>
          match act (action option_) params s with
          | (Return r, s, printed) =>
              (MReturn _ r, s, stdin, out ++ (ByAction <$> printed))
          | (Raise e, s, printed) =>
              except_ValueError (Inner e) s stdin
                (out ++ (ByAction <$> printed))
          end
      end
  end.

(** [show] *)
Definition Menu_show (options : list Entry) : list Printed :=
  imap (λ i option_, Numbered (i + 1) (label option_)) options.

(** The body of the loop of [start], once; [to_int] is [int] on a line,
    [None] when it raises [ValueError]. *)
Definition Menu_turn (to_int : str → option Z) (options : list Entry)
    (stdin : list str) (s : St)
  : MenuOutcome unit * St * list str * list Printed :=
  let shown := Menu_show options ++ [AskChoice] in
  match stdin with
  | [] => (MRaise _ EOFError, s, [], shown)
  | line :: stdin =>
      match to_int line with
      | None => (MReturn _ tt, s, stdin, shown ++ [ChooseCorrect])
      | Some k =>
          let choice := k - 1 in
          match Menu_option options choice stdin s with
          | (MReturn _ (Some res), s, stdin, out) =>
              (MReturn _ tt, s, stdin, shown ++ out ++ [Result res])
          | (MReturn _ None, s, stdin, out) =>
              (MReturn _ tt, s, stdin, shown ++ out)
          | (MRaise _ IndexError, s, stdin, out) =>
              (MReturn _ tt, s, stdin, shown ++ out ++ [ChooseCorrect])
          | (MRaise _ (Inner ValueError), s, stdin, out) =>
              (MReturn _ tt, s, stdin, shown ++ out ++ [ChooseCorrect])
          | (MRaise _ e, s, stdin, out) => (MRaise _ e, s, stdin, shown ++ out)
          end
      end
  end.

End Menu.

Arguments Dict : clear implicits.
Arguments Param : clear implicits.
Arguments Action : clear implicits.
Arguments Entry : clear implicits.
Arguments Printed : clear implicits.
Arguments MReturn {A} a.
Arguments MRaise {A} e.

(** * Vocabulary of the properties *)

(** ** Adding *)

Section Vocabulary.

Variable to_datetime : str → option Date.

(** The cell [add_entry] builds for the [date] column; [None] when
    [pd.to_datetime] raises. *)
Definition entry_date (date : option str) (today : Date) : option DateCell :=
  match date with
  | Some s =>
      if match_DATE_PATTERN s then Timestamp <$> to_datetime s
      else Some (DateOnly today)
  | None => Some (DateOnly today)
  end.

(** The test [add_entry] makes before it calls the balance changer. *)
Definition fields_ok (category description : option str) : bool :=
  truthy category && truthy description
  && bool_decide (length (text description) < MAX_DESC_LENGTH)%nat.

(** The wallet after a row was appended and saved. *)
Definition appended (w : Wallet) (b : Z) (row : Row) : Wallet :=
  mkWallet (data w ++ [row]) b (Some (data w ++ [row])).

(** An error was reported and the wallet (rows, balance, file) is as it
    was. *)
Definition rejected (res : Outcome unit * Wallet * list Message)
    (w : Wallet) : Prop :=
  ∃ msg out, res = (Return tt, w, msg :: out).

(** ** Editing

    [edit_entry] reads and writes the row of one label only.  [focus] is the
    wallet in which that row is [r] and the balance is [b]; the functions
    [after_...] give the row and the balance each step leaves. *)

Definition focus (rows : list Row) (n : nat) (r : Row) (b : Z)
    (st : option (list Row)) : Wallet :=
  mkWallet (<[n:=r]> rows) b st.

(** The tentative balance of [__change_category] and [__change_amount]. *)
Definition fake (c : str) (b prev_amount curr_amount : Z) : Z :=
  if decide (c = EXPENSE) then b - prev_amount - curr_amount
  else b + prev_amount + curr_amount.

(** The row and the balance after the [category] step of [edit_entry]. *)
Definition after_category (new_category : option str) (amt : option Z)
    (rb : Row * Z) : Row * Z :=
  let '(r, b) := rb in
  if truthy new_category && bool_decide (text new_category ∈ CATEGORIES)
     && bool_decide (text new_category ≠ category r)
  then
    let curr :=
      match amt with
      | Some a => if truthy_num amt then a else amount r
      | None => amount r
      end in
    let f := fake (text new_category) b (amount r) curr in
    if bool_decide (0 ≤ f)
    then (with_category (text new_category) r, if truthy_num amt then b else f)
    else (r, b)
  else (r, b).

(** The row and the balance after the [amount] step. *)
Definition after_amount (prev_category : str) (amt : option Z)
    (rb : Row * Z) : Row * Z :=
  let '(r, b) := rb in
  match amt with
  | Some a =>
      if truthy_num amt then
        let prev_amount :=
          amount r * (-1) ^ (if decide (prev_category = category r) then 1 else 0) in
        let f := fake (category r) b prev_amount a in
        if bool_decide (0 ≤ f) then (with_amount a r, f) else (r, b)
      else (r, b)
  | None => (r, b)
  end.

(** The row after the [description] step. *)
Definition after_description (new_description : option str) (r : Row) : Row :=
  if truthy new_description
     && bool_decide (length (text new_description) < MAX_DESC_LENGTH)%nat
  then with_description (text new_description) r
  else r.

(** The row after the [date] step; [None] when [pd.to_datetime] raises. *)
Definition after_date (new_date : option str) (r : Row) : option Row :=
  if truthy new_date && match_DATE_PATTERN (text new_date)
  then (λ d, with_date (Timestamp d) r) <$> to_datetime (text new_date)
  else Some r.

(** The four [if] statements of [edit_entry], one per field. *)
Definition edit_category (index : Z) (new_category : option str)
    (amt : option Z) : M unit :=
  if truthy new_category && bool_decide (text new_category ∈ CATEGORIES) then
    cur ← loc index;
    if bool_decide (text new_category ≠ category cur) then
      ok ← change_category (text new_category) index amt;
      if (ok : bool) then loc_set index (with_category (text new_category))
      else mret tt
    else mret tt
  else mret tt.

Definition edit_date (index : Z) (new_date : option str) : M unit :=
  if truthy new_date && match_DATE_PATTERN (text new_date) then
    cell ← parse_date to_datetime (text new_date);
    loc_set index (with_date cell)
  else mret tt.

Definition edit_amount (prev_category : str) (index : Z) (amt : option Z)
  : M unit :=
  match amt with
  | Some a =>
      if truthy_num amt then
        ok ← change_amount prev_category index a;
        if (ok : bool) then loc_set index (with_amount a) else mret tt
      else mret tt
  | None => mret tt
  end.

Definition edit_description (index : Z) (new_description : option str)
  : M unit :=
  if truthy new_description
     && bool_decide (length (text new_description) < MAX_DESC_LENGTH)%nat
  then loc_set index (with_description (text new_description))
  else mret tt.

(** ** Searching *)

(** What [self.data.loc[[index]]] gives back: the row, or the report of the
    [KeyError]. *)
Definition lookup_result (index : Z) (w : Wallet)
  : Outcome (option Frame) * Wallet * list Message :=
  match (if bool_decide (0 ≤ index) then data w !! Z.to_nat index else None) with
  | Some r => (Return (Some [(Z.to_nat index, r)]), w, [])
  | None => (Return None, w, [CheckInput])
  end.

(** ** The balance the rows account for *)






(** The sign with which a category enters the balance. *)
Definition sgn (c : str) : Z := if decide (c = EXPENSE) then -1 else 1.

(** ** Sequences of calls *)

Inductive Call :=
| AddEntry (new_category new_date : option str) (amt : option Z)
    (new_description : option str) (today : Date)
| EditEntry (index : Z) (new_category new_date : option str)
    (amt : option Z) (new_description : option str).

(** A call succeeded when it returned and printed no complaint: the wallet
    it leaves, or [None]. *)
Definition succeeded (res : Outcome unit * Wallet * list Message)
  : option Wallet :=
  match res with
  | (Return _, w', []) => Some w'
  | _ => None
  end.


Definition perform (c : Call) : M unit :=
  match c with
  | AddEntry new_category new_date amt new_description today =>
      add_entry to_datetime new_category new_date amt new_description today
  | EditEntry index new_category new_date amt new_description =>
      edit_entry to_datetime index new_category new_date amt new_description
  end.

(** The wallet after a sequence of calls that all succeeded, or [None]. *)
Fixpoint run_calls (calls : list Call) (w : Wallet) : option Wallet :=
  match calls with
  | [] => Some w
  | c :: calls =>
      match succeeded (perform c w) with
      | Some w' => run_calls calls w'
      | None => None
      end
  end.

End Vocabulary.

(** ** The range of exact arithmetic

    Integer amounts of at most [2^31] in absolute value, in no more than
    [2^30] rows and calls together, keep the balance and every sum of the
    column within [2^61]: inside the 64-bit integers of pandas and numpy,
    where the arithmetic of the code is the exact one. *)




(** ** Wallets and calls of the examples *)

(** The wallet of the repository's tests: no file yet. *)
Definition empty_wallet : Wallet := Wallet_init None.

Definition a_day : Date := mkDate 2026 11 3.

Definition test_income : Call :=
  AddEntry (Some INCOME) (Some (py "2022-01-01")) (Some 100)
    (Some (py "Test income")) a_day.


Definition one_income : Wallet :=
  let rows := [mkRow (Timestamp (mkDate 2022 1 1)) INCOME 100 (py "Test income")]
  in mkWallet rows 100 (Some rows).

Definition income_and_expense : Wallet :=
  let rows :=
    [ mkRow (Timestamp (mkDate 2022 1 1)) INCOME 100 (py "Test income");
      mkRow (Timestamp (mkDate 2022 1 2)) EXPENSE 10 (py "Bread") ] in
  mkWallet rows 90 (Some rows).

Definition two_incomes : Wallet :=
  let rows :=
    [ mkRow (Timestamp (mkDate 2022 1 1)) INCOME 100 (py "Test income");
      mkRow (Timestamp (mkDate 2022 1 1)) INCOME 150 (py "Second test income") ]
  in mkWallet rows 250 (Some rows).

Definition three_calls : list Call :=
  [ test_income;
    EditEntry 0 (Some EXPENSE) None (Some 50) None;
    AddEntry (Some EXPENSE) None (Some 30) (Some (py "Bread")) a_day ].

Definition after_three_calls : Wallet :=
  let rows :=
    [ mkRow (Timestamp (mkDate 2022 1 1)) INCOME 50 (py "Test income");
      mkRow (DateOnly a_day) EXPENSE 30 (py "Bread") ] in
  mkWallet rows 20 (Some rows).

(** ** Vocabulary of the further properties *)

(** The wallet in which row [n] is [r], the balance is [b], and the table
    was saved. *)
Definition saved_with (w : Wallet) (n : nat) (r : Row) (b : Z) : Wallet :=
  mkWallet (<[n:=r]> (data w)) b (Some (<[n:=r]> (data w))).

(** What [option] makes of one answer: [None] for a blank line, the value
    for a line the conversion takes; no result when the conversion raises
    [ValueError]. *)
Definition answer {V} (to_type : str → option V) (value : str)
  : option (option V) :=
  match value with
  | [] => Some None
  | _ => Some <$> to_type value
  end.

(** The same for the answers to a list of prompts, one line each. *)
Fixpoint answers {V} (specs : list (str * (str → option V)))
    (lines : list str) : option (list (option V)) :=
  match specs, lines with
  | [], _ => Some []
  | sp :: specs, line :: lines =>
      match answer sp.2 line, answers specs lines with
      | Some v, Some vs => Some (v :: vs)
      | _, _ => None
      end
  | _ :: _, [] => None
  end.

(** The argument [{label: to_type}] of an option. *)
Definition one_item {V} (sp : str * (str → option V)) : Param V :=
  PDict [sp].

(** What the two methods below give back. *)
Inductive Res :=
| RNumber (z : Z)
| RBool (b : bool).

(** [wallet.get_balance] as an action of the menu. *)
Definition balance_action : Action Wallet Z Res Message :=
  mkAction 0
    (λ params w,
       match params with
       | [] =>
           match get_balance w with
           | (Return b, w', out) => (Return (Some (RNumber b)), w', out)
           | (Raise e, w', out) => (Raise e, w', out)
           end
       | _ => (Raise TypeError, w, [])
       end).

(** [wallet.increase_balance] as an action of the menu. *)
Definition increase_action : Action Wallet Z Res Message :=
  mkAction 1
    (λ params w,
       match params with
       | [PValue a] =>
           match increase_balance a w with
           | (Return b, w', out) => (Return (Some (RBool b)), w', out)
           | (Raise e, w', out) => (Raise e, w', out)
           end
       | _ => (Raise TypeError, w, [])
       end).

(** A conversion for the examples: a numeral of ASCII digits. *)
Definition numeral (s : str) : option Z :=
  match s with
  | [] => None
  | _ =>
      if forallb is_ascii_digit s
      then Some (foldl (λ acc c, 10 * acc + digit c) 0 s)
      else None
  end.

Definition small_menu : list (Entry Wallet Z Res Message) :=
  add_option
    (add_option [] (py "Balance") balance_action None)
    (py "Pay in") increase_action (Some [one_item (py "amount", numeral)]).

(** What the conversions of the menu of the wallet give: [str] a text,
    [float] a number (here, of a numeral). *)
Inductive Answer :=
| AText (s : str)
| ANumber (a : Z).

Definition to_text (s : str) : option Answer := Some (AText s).
Definition to_number (s : str) : option Answer := ANumber <$> numeral s.

(** [wallet.add_entry] as an action of the menu, on the values the
    conversions of its option give: a text or [None] for the category, the
    date and the description, a number or [None] for the amount. *)
Definition add_entry_action (today : Date)
  : Action Wallet Answer Res Message :=
  mkAction 4
    (λ params w,
       match params with
       | [PValue c; PValue d; PValue a; PValue description] =>
           let as_text v :=
             match v with Some (AText s) => Some s | _ => None end in
           let as_number v :=
             match v with Some (ANumber a) => Some a | _ => None end in
           match add_entry strptime_Ymd (as_text c) (as_text d) (as_number a)
                   (as_text description) today w with
           | (Return _, w', out) => (Return None, w', out)
           | (Raise e, w', out) => (Raise e, w', out)
           end
       | _ => (Raise TypeError, w, [])
       end).

Definition add_entry_prompts : list (str * (str → option Answer)) :=
  [ (py "category", to_text); (py "date", to_text);
    (py "amount", to_number); (py "description", to_text) ].

Definition entry_menu : list (Entry Wallet Answer Res Message) :=
  add_option [] (py "Add an entry") (add_entry_action a_day)
    (Some (one_item <$> add_entry_prompts)).

(** * Properties *)

Example INCOME_text : INCOME = utf8 "Доход".
Proof. reflexivity. Qed.

Example EXPENSE_text : EXPENSE = utf8 "Расход".
Proof. reflexivity. Qed.


(** ** Running the monad *)

Lemma bind_run {A B} (m : M A) (f : A → M B) (w : Wallet) :
  (m ≫= f) w =
  match m w with
  | (Return a, w1, out1) =>
      let '(r, w2, out2) := f a w1 in (r, w2, out1 ++ out2)
  | (Raise e, w1, out1) => (Raise e, w1, out1)
  end.
Proof. reflexivity. Qed.

Lemma mret_run {A} (a : A) (w : Wallet) :
  (mret a : M A) w = (Return a, w, []).
Proof. reflexivity. Qed.

Lemma get_run (w : Wallet) : get w = (Return w, w, []).
Proof. reflexivity. Qed.

Lemma print_run (msg : Message) (w : Wallet) : print msg w = (Return tt, w, [msg]).
Proof. reflexivity. Qed.

Lemma raise_run {A} (e : Exn) (w : Wallet) : raise (A:=A) e w = (Raise e, w, []).
Proof. reflexivity. Qed.

Lemma set_data_run (rows : list Row) (w : Wallet) :
  set_data rows w = (Return tt, mkWallet rows (balance w) (stored w), []).
Proof. reflexivity. Qed.

Lemma set_balance_to_run (b : Z) (w : Wallet) :
  set_balance_to b w = (Return tt, mkWallet (data w) b (stored w), []).
Proof. reflexivity. Qed.

Lemma save_data_run (w : Wallet) :
  save_data w = (Return tt, mkWallet (data w) (balance w) (Some (data w)), []).
Proof. reflexivity. Qed.

Create Rewrite HintDb run.
#[global] Hint Rewrite @bind_run @mret_run get_run print_run @raise_run
  set_data_run set_balance_to_run save_data_run : run.

(** One pass of symbolic execution: expose the next call, rewrite it with
    its equation, reduce the matches on what it returned. *)
Ltac run :=
  repeat (progress (autorewrite with run; cbv beta iota zeta; cbn [app])).

Lemma BALANCE_CHANGERS_INCOME : BALANCE_CHANGERS INCOME = Some increase_balance.
Proof. reflexivity. Qed.

Lemma BALANCE_CHANGERS_EXPENSE : BALANCE_CHANGERS EXPENSE = Some decrease_balance.
Proof. reflexivity. Qed.

Lemma elem_of_CATEGORIES (c : str) : c ∈ CATEGORIES ↔ c = INCOME ∨ c = EXPENSE.
Proof. unfold CATEGORIES. rewrite !elem_of_cons, elem_of_nil. tauto. Qed.

Lemma BALANCE_CHANGERS_unknown (c : str) :
  c ∉ CATEGORIES → BALANCE_CHANGERS c = None.
Proof.
  rewrite elem_of_CATEGORIES. intros Hc. unfold BALANCE_CHANGERS.
  destruct (decide (c = INCOME)); [tauto|].
  destruct (decide (c = EXPENSE)); [tauto|]. reflexivity.
Qed.

Lemma INCOME_ne_EXPENSE : INCOME ≠ EXPENSE.
Proof. discriminate. Qed.

(** The balance changers return on a number only. *)
Lemma call_changer_None (c : str) (w : Wallet) :
  call (BALANCE_CHANGERS c) None w = (Raise TypeError, w, []).
Proof.
  unfold BALANCE_CHANGERS.
  destruct (decide (c = INCOME)); [reflexivity|].
  destruct (decide (c = EXPENSE)); reflexivity.
Qed.

Section AddEntry.

Variable to_datetime : str → option Date.

Lemma add_entry_fields_bad category date amount description today w :
  fields_ok category description = false →
  add_entry to_datetime category date amount description today w
  = (Return tt, w, [CheckData]).
Proof.
  unfold fields_ok. intros H. unfold add_entry, try_except.
  rewrite bind_run, H. destruct w; reflexivity.
Qed.

Lemma add_entry_income date a description today w cell :
  fields_ok (Some INCOME) description = true →
  entry_date to_datetime date today = Some cell →
  add_entry to_datetime (Some INCOME) date (Some a) description today w
  = (Return tt,
     appended w (balance w + a) (mkRow cell INCOME a (text description)), []).
Proof.
  unfold fields_ok, entry_date. intros H Hd. unfold add_entry, try_except.
  rewrite bind_run, H. cbn [text]. rewrite BALANCE_CHANGERS_INCOME.
  destruct date as [s|]; [destruct (match_DATE_PATTERN s)|].
  - unfold parse_date. destruct (to_datetime s); simplify_eq/=. reflexivity.
  - simplify_eq/=. reflexivity.
  - simplify_eq/=. reflexivity.
Qed.

Lemma add_entry_income_bad_date date a description today w :
  fields_ok (Some INCOME) description = true →
  entry_date to_datetime date today = None →
  add_entry to_datetime (Some INCOME) date (Some a) description today w
  = (Raise ValueError, mkWallet (data w) (balance w + a) (stored w), []).
Proof.
  unfold fields_ok, entry_date. intros H Hd. unfold add_entry, try_except.
  rewrite bind_run, H. cbn [text]. rewrite BALANCE_CHANGERS_INCOME.
  destruct date as [s|]; [destruct (match_DATE_PATTERN s)|]; try discriminate.
  unfold parse_date. destruct (to_datetime s); simplify_eq/=. reflexivity.
Qed.

Lemma add_entry_expense date a description today w cell :
  fields_ok (Some EXPENSE) description = true →
  0 ≤ balance w - a →
  entry_date to_datetime date today = Some cell →
  add_entry to_datetime (Some EXPENSE) date (Some a) description today w
  = (Return tt,
     appended w (balance w - a) (mkRow cell EXPENSE a (text description)), []).
Proof.
  unfold fields_ok, entry_date. intros H Hb Hd. unfold add_entry, try_except.
  rewrite bind_run, H. cbn [text]. rewrite BALANCE_CHANGERS_EXPENSE.
  cbn [call decrease_balance]. rewrite bind_run. cbn [get].
  rewrite bool_decide_true by done.
  destruct date as [s|]; [destruct (match_DATE_PATTERN s)|].
  - unfold parse_date. destruct (to_datetime s); simplify_eq/=. reflexivity.
  - simplify_eq/=. reflexivity.
  - simplify_eq/=. reflexivity.
Qed.

Lemma add_entry_expense_bad_date date a description today w :
  fields_ok (Some EXPENSE) description = true →
  0 ≤ balance w - a →
  entry_date to_datetime date today = None →
  add_entry to_datetime (Some EXPENSE) date (Some a) description today w
  = (Raise ValueError, mkWallet (data w) (balance w - a) (stored w), []).
Proof.
  unfold fields_ok, entry_date. intros H Hb Hd. unfold add_entry, try_except.
  rewrite bind_run, H. cbn [text]. rewrite BALANCE_CHANGERS_EXPENSE.
  cbn [call decrease_balance]. rewrite bind_run. cbn [get].
  rewrite bool_decide_true by done.
  destruct date as [s|]; [destruct (match_DATE_PATTERN s)|]; try discriminate.
  unfold parse_date. destruct (to_datetime s); simplify_eq/=. reflexivity.
Qed.

Lemma add_entry_expense_insufficient date a description today w :
  fields_ok (Some EXPENSE) description = true →
  balance w < a →
  add_entry to_datetime (Some EXPENSE) date (Some a) description today w
  = (Return tt, w, [InsufficientFunds; CheckData]).
Proof.
  unfold fields_ok. intros H Hb. unfold add_entry, try_except.
  rewrite bind_run, H. cbn [text]. rewrite BALANCE_CHANGERS_EXPENSE.
  cbn [call decrease_balance]. rewrite bind_run. cbn [get].
  rewrite bool_decide_false by lia. reflexivity.
Qed.

Lemma add_entry_unknown category date amount description today w :
  fields_ok category description = true →
  text category ∉ CATEGORIES →
  add_entry to_datetime category date amount description today w
  = (Return tt, w, [RequiredFields]).
Proof.
  unfold fields_ok. intros H Hc. unfold add_entry, try_except.
  rewrite bind_run, H, BALANCE_CHANGERS_unknown by done. reflexivity.
Qed.

Lemma add_entry_no_amount category date description today w :
  fields_ok category description = true →
  add_entry to_datetime category date None description today w
  = (Return tt, w, [RequiredFields]).
Proof.
  unfold fields_ok. intros H. unfold add_entry, try_except.
  rewrite bind_run, H, call_changer_None. reflexivity.
Qed.

Lemma truthy_text (s : option str) : truthy s = true → s = Some (text s).
Proof. destruct s as [[|]|]; done. Qed.

Lemma fields_ok_category category description :
  fields_ok category description = true → category = Some (text category).
Proof.
  unfold fields_ok. rewrite !andb_true_iff. intros [[H _] _].
  by apply truthy_text.
Qed.

(** What a call of [add_entry] that appended a row has done. *)
Lemma add_entry_success_inv category date amount description today w w' :
  add_entry to_datetime category date amount description today w
  = (Return tt, w', []) →
  ∃ cell a,
    fields_ok category description = true
    ∧ amount = Some a
    ∧ entry_date to_datetime date today = Some cell
    ∧ ((text category = INCOME ∧ balance w' = balance w + a)
       ∨ (text category = EXPENSE ∧ balance w' = balance w - a
          ∧ 0 ≤ balance w'))
    ∧ w' = appended w (balance w')
             (mkRow cell (text category) a (text description)).
Proof.
  destruct (fields_ok category description) eqn:Hf.
  2:{ rewrite add_entry_fields_bad by done. discriminate. }
  destruct amount as [a|].
  2:{ rewrite add_entry_no_amount by done. discriminate. }
  destruct (decide (text category ∈ CATEGORIES)) as [Hc|Hc].
  2:{ rewrite add_entry_unknown by done. discriminate. }
  destruct category as [c|]; [|discriminate]. cbn [text] in *.
  apply elem_of_CATEGORIES in Hc as [-> | ->].
  - destruct (entry_date to_datetime date today) as [cell|] eqn:Hd.
    + rewrite (add_entry_income _ _ _ _ _ cell) by done. intros [= <-].
      exists cell, a. cbn [text]. split_and!; try done. by left.
    + rewrite add_entry_income_bad_date by done. discriminate.
  - destruct (decide (0 ≤ balance w - a)).
    + destruct (entry_date to_datetime date today) as [cell|] eqn:Hd.
      * rewrite (add_entry_expense _ _ _ _ _ cell) by done. intros [= <-].
        exists cell, a. cbn [text]. split_and!; try done. by right.
      * rewrite add_entry_expense_bad_date by done. discriminate.
    + rewrite add_entry_expense_insufficient by (done || lia). discriminate.
Qed.

End AddEntry.

(** ** The balance the rows account for *)












(** ** One row under edit

    [edit_entry] reads and writes the row of one label only.  [focus] is the
    wallet in which that row is [r] and the balance is [b]. *)

Section Focus.

Context (rows : list Row) (n : nat) (Hn : (n < length rows)%nat).

Lemma loc_focus r b st :
  loc (Z.of_nat n) (focus rows n r b st) = (Return r, focus rows n r b st, []).
Proof.
  unfold loc. rewrite bind_run. cbn [get]. cbv beta iota.
  rewrite bool_decide_true by lia. rewrite Nat2Z.id. cbn [data focus].
  rewrite list_lookup_insert_eq by done. reflexivity.
Qed.

Lemma loc_set_focus f r b st :
  loc_set (Z.of_nat n) f (focus rows n r b st)
  = (Return tt, focus rows n (f r) b st, []).
Proof.
  unfold loc_set. rewrite bind_run, loc_focus. run.
  rewrite Nat2Z.id. unfold focus. cbn. by rewrite list_insert_insert_eq.
Qed.

Lemma change_category_focus c amt r b st :
  change_category c (Z.of_nat n) amt (focus rows n r b st)
  = let curr :=
      match amt with
      | Some a => if truthy_num amt then a else amount r
      | None => amount r
      end in
    let f := fake c b (amount r) curr in
    (Return (bool_decide (0 ≤ f)),
     focus rows n r
       (if bool_decide (0 ≤ f) && negb (truthy_num amt) then f else b) st,
     []).
Proof.
  unfold change_category. rewrite bind_run, loc_focus. run.
  cbn [balance focus]. fold (focus rows n r b st). unfold fake.
  case_bool_decide; [|by run].
  destruct (truthy_num amt); by run.
Qed.

Lemma change_amount_focus pc a r b st :
  change_amount pc (Z.of_nat n) a (focus rows n r b st)
  = let prev_amount :=
      amount r * (-1) ^ (if decide (pc = category r) then 1 else 0) in
    let f := fake (category r) b prev_amount a in
    (Return (bool_decide (0 ≤ f)),
     focus rows n r (if bool_decide (0 ≤ f) then f else b) st, []).
Proof.
  unfold change_amount. rewrite bind_run, loc_focus. run.
  rewrite loc_focus. run.
  cbn [balance focus]. fold (focus rows n r b st). unfold fake.
  case_bool_decide; by run.
Qed.

End Focus.

Section EditEntry.

Variable to_datetime : str → option Date.

Lemma edit_entry_steps index new_category new_date amt new_description :
  edit_entry to_datetime index new_category new_date amt new_description
  = try_except [KeyError]
      (_ ← loc index;
       row ← loc index;
       edit_category index new_category amt;;
       edit_date to_datetime index new_date;;
       edit_amount (category row) index amt;;
       edit_description index new_description;;
       save_data)
      (print BadRecordNumber).
Proof. reflexivity. Qed.

Section Steps.

Context (rows : list Row) (n : nat) (Hn : (n < length rows)%nat).

Lemma edit_category_focus new_category amt r b st :
  edit_category (Z.of_nat n) new_category amt (focus rows n r b st)
  = (Return tt,
     focus rows n (after_category new_category amt (r, b)).1
       (after_category new_category amt (r, b)).2 st, []).
Proof.
  unfold edit_category, after_category.
  destruct (truthy new_category && _); [|by run].
  rewrite bind_run, loc_focus by done. run.
  cbn [andb]. case_bool_decide; [|by run].
  rewrite bind_run, change_category_focus by done. run.
  case_bool_decide; [|by run].
  rewrite loc_set_focus by done. cbn [andb negb fst snd].
  by destruct (truthy_num amt).
Qed.

Lemma edit_date_focus new_date r b st :
  edit_date to_datetime (Z.of_nat n) new_date (focus rows n r b st)
  = match after_date to_datetime new_date r with
    | Some r' => (Return tt, focus rows n r' b st, [])
    | None => (Raise ValueError, focus rows n r b st, [])
    end.
Proof.
  unfold edit_date, after_date, parse_date.
  destruct (_ && _); [|by run].
  rewrite bind_run. destruct (to_datetime _); run; [|done].
  by rewrite loc_set_focus.
Qed.

Lemma edit_amount_focus pc amt r b st :
  edit_amount pc (Z.of_nat n) amt (focus rows n r b st)
  = (Return tt,
     focus rows n (after_amount pc amt (r, b)).1
       (after_amount pc amt (r, b)).2 st, []).
Proof.
  unfold edit_amount, after_amount.
  destruct amt as [a|]; [|by run].
  destruct (truthy_num (Some a)); [|by run].
  rewrite bind_run, change_amount_focus by done. run.
  case_bool_decide; [|by run].
  by rewrite loc_set_focus.
Qed.

Lemma edit_description_focus new_description r b st :
  edit_description (Z.of_nat n) new_description (focus rows n r b st)
  = (Return tt, focus rows n (after_description new_description r) b st, []).
Proof.
  unfold edit_description, after_description.
  destruct (_ && _); [|by run].
  by rewrite loc_set_focus.
Qed.

End Steps.

(** [edit_entry] on a label that is in the index, in one equation: the four
    steps run in the order category, date, amount, description, each on the
    row and the balance the step before it left; a date that
    [pd.to_datetime] refuses ends the call with a [ValueError] that
    [edit_entry] does not catch, after the category step and before the
    others and the save. *)
Theorem edit_entry_run n new_category new_date amt new_description w r0 :
  data w !! n = Some r0 →
  edit_entry to_datetime (Z.of_nat n)
    new_category new_date amt new_description w
  = let rb1 := after_category new_category amt (r0, balance w) in
    match after_date to_datetime new_date rb1.1 with
    | Some r2 =>
        let rb3 := after_amount (category r0) amt (r2, rb1.2) in
        let r4 := after_description new_description rb3.1 in
        (Return tt,
         mkWallet (<[n:=r4]> (data w)) rb3.2 (Some (<[n:=r4]> (data w))), [])
    | None =>
        (Raise ValueError,
         mkWallet (<[n:=rb1.1]> (data w)) rb1.2 (stored w), [])
    end.
Proof.
  intros H. pose proof (lookup_lt_Some _ _ _ H) as Hn.
  destruct w as [rows b st]. cbn [data balance stored] in *.
  replace (mkWallet rows b st) with (focus rows n r0 b st)
    by (unfold focus; by rewrite list_insert_id).
  rewrite edit_entry_steps. unfold try_except.
  rewrite bind_run, loc_focus by done. run.
  rewrite loc_focus by done. run.
  rewrite edit_category_focus by done. run.
  rewrite edit_date_focus by done.
  destruct (after_date _ _ _) as [r2|]; run; [|done].
  rewrite edit_amount_focus by done. run.
  rewrite edit_description_focus by done. run.
  reflexivity.
Qed.

(** A label that is not in the index: nothing changes and the wrong record
    number is reported. *)
Lemma edit_entry_KeyError index new_category new_date amt new_description w :
  index < 0 ∨ data w !! Z.to_nat index = None →
  edit_entry to_datetime index new_category new_date amt new_description w
  = (Return tt, w, [BadRecordNumber]).
Proof.
  intros H. rewrite edit_entry_steps. unfold try_except.
  rewrite bind_run. unfold loc at 1. run.
  case_bool_decide.
  - destruct H as [H|H]; [lia|]. rewrite H. by run.
  - by run.
Qed.

End EditEntry.

(** ** What the steps of an edit do to the balance *)


Lemma pow_m1_1 : (-1) ^ 1 = -1.
Proof. reflexivity. Qed.


Lemma sgn_cases c : sgn c = 1 ∨ sgn c = -1.
Proof. unfold sgn. case_decide; auto. Qed.

Lemma fake_sgn c b p q : fake c b p q = b + sgn c * (p + q).
Proof. unfold fake, sgn. case_decide; lia. Qed.


Lemma sgn_flip c c' :
  c ∈ CATEGORIES → c' ∈ CATEGORIES → c ≠ c' → sgn c' = - sgn c.
Proof.
  intros [->| ->]%elem_of_CATEGORIES [->| ->]%elem_of_CATEGORIES Hne;
    done.
Qed.

(** The three ways the category step ends: nothing changed; the category
    and the balance changed (no amount was given); the category changed and
    the balance waits for the amount step. *)
Lemma after_category_cases new_category amt r b :
  after_category new_category amt (r, b) = (r, b)
  ∨ (∃ c, c ∈ CATEGORIES ∧ c ≠ category r ∧ truthy_num amt = false
       ∧ 0 ≤ fake c b (amount r) (amount r)
       ∧ after_category new_category amt (r, b)
         = (with_category c r, fake c b (amount r) (amount r)))
  ∨ (∃ c a, c ∈ CATEGORIES ∧ c ≠ category r
       ∧ amt = Some a ∧ truthy_num amt = true
       ∧ 0 ≤ fake c b (amount r) a
       ∧ after_category new_category amt (r, b) = (with_category c r, b)).
Proof.
  unfold after_category.
  destruct (truthy new_category && _ && _) eqn:Hc; [|by left].
  apply andb_true_iff in Hc as [Hc Hne].
  apply andb_true_iff in Hc as [_ Hin].
  apply bool_decide_eq_true in Hne, Hin.
  destruct amt as [a|].
  - destruct (truthy_num (Some a)) eqn:Ha.
    + case_bool_decide; [|by left].
      right; right. by exists (text new_category), a.
    + case_bool_decide; [|by left].
      right; left. by exists (text new_category).
  - cbn [truthy_num]. case_bool_decide; [|by left].
    right; left. by exists (text new_category).
Qed.

Lemma after_amount_falsy pc amt rb :
  truthy_num amt = false → after_amount pc amt rb = rb.
Proof.
  unfold after_amount. destruct rb as [r b].
  destruct amt; [|done]. by intros ->.
Qed.

Lemma after_amount_truthy pc a r b :
  truthy_num (Some a) = true →
  after_amount pc (Some a) (r, b)
  = let f :=
      fake (category r) b
        (amount r * (-1) ^ (if decide (pc = category r) then 1 else 0)) a in
    if bool_decide (0 ≤ f) then (with_amount a r, f) else (r, b).
Proof. unfold after_amount. by intros ->. Qed.



Lemma amount_after_description new_description r :
  amount (after_description new_description r) = amount r.
Proof. unfold after_description. by destruct (_ && _). Qed.


(** How a call of [edit_entry] ends: the label is not in the index and
    nothing happens but the report, or the label is that of a row and
    [edit_entry_run] applies. *)
Lemma edit_entry_two_ways to_datetime index new_category new_date amt
    new_description w :
  (index < 0 ∨ data w !! Z.to_nat index = None)
  ∧ edit_entry to_datetime index new_category new_date amt new_description w
    = (Return tt, w, [BadRecordNumber])
  ∨ ∃ n r0, index = Z.of_nat n ∧ data w !! n = Some r0.
Proof.
  destruct (decide (0 ≤ index)) as [Hi|Hi].
  2:{ left. split; [lia|]. apply edit_entry_KeyError. lia. }
  destruct (data w !! Z.to_nat index) as [r0|] eqn:Hl.
  2:{ left. split; [auto|]. apply edit_entry_KeyError. auto. }
  right. exists (Z.to_nat index), r0. split; [lia|done].
Qed.

(** ** Sequences of calls *)

Section Calls.

Variable to_datetime : str → option Date.

Lemma succeeded_inv res w' : succeeded res = Some w' → res = (Return tt, w', []).
Proof. destruct res as [[[[]|] ?] []]; by intros [= ->]. Qed.

Lemma after_date_fields new_date r r2 :
  after_date to_datetime new_date r = Some r2 →
  category r2 = category r ∧ amount r2 = amount r.
Proof.
  unfold after_date. destruct (_ && _); [|by intros [= ->]].
  destruct (to_datetime _); by intros [= <-].
Qed.


Lemma category_after_description new_description r :
  category (after_description new_description r) = category r.
Proof. unfold after_description. by destruct (_ && _). Qed.









End Calls.

(** * The claims *)

(** ** C1: the balance invariant *)




(** ** C2: amounts that are not positive *)

(** C2, as stated, fails: on a new wallet, [add_entry] with category income
    and amount -5 reports nothing, appends the row and sets the balance
    to -5. *)
Lemma negative_amount_not_rejected :
  ¬ rejected
      (add_entry strptime_Ymd (Some INCOME) (Some (py "2022-01-01"))
         (Some (-5)) (Some (py "Test income")) a_day empty_wallet)
      empty_wallet.
Proof. intros (msg & out & H). vm_compute in H. discriminate. Qed.

(** C2, amended: [add_entry] validates that an amount is there, not its
    sign.  Every call without an amount reports an error and changes
    nothing, whatever the other arguments and the wallet are.  With an
    amount that is not positive and the other fields valid, the entry is
    added like any other: an income is appended and the balance grows by the
    amount (so it shrinks or stays); an expense is appended when the balance
    minus the amount is not negative. *)
Theorem add_entry_amount_not_validated (to_datetime : str → option Date)
    (new_category new_date new_description : option str) (today : Date)
    (w : Wallet) :
  rejected
    (add_entry to_datetime new_category new_date None new_description today w)
    w
  ∧ ∀ (a : Z) (cell : DateCell),
      a ≤ 0 →
      truthy new_description = true →
      (length (text new_description) < MAX_DESC_LENGTH)%nat →
      entry_date to_datetime new_date today = Some cell →
      add_entry to_datetime (Some INCOME) new_date (Some a) new_description
        today w
      = (Return tt,
         appended w (balance w + a)
           (mkRow cell INCOME a (text new_description)),
         [])
      ∧ (0 ≤ balance w - a →
         add_entry to_datetime (Some EXPENSE) new_date (Some a)
           new_description today w
         = (Return tt,
            appended w (balance w - a)
              (mkRow cell EXPENSE a (text new_description)),
            [])).
Proof.
  split.
  - destruct (fields_ok new_category new_description) eqn:Hok.
    + exists RequiredFields, []. by apply add_entry_no_amount.
    + exists CheckData, []. by apply add_entry_fields_bad.
  - intros a cell Ha Hd Hlen Hcell.
    assert (∀ c, fields_ok (Some c) new_description = truthy (Some c)) as Hf.
    { intros c. unfold fields_ok. rewrite Hd, bool_decide_true by done.
      by rewrite !andb_true_r. }
    split.
    + apply add_entry_income; [by rewrite Hf|done].
    + intros Hb. apply add_entry_expense; [by rewrite Hf|done|done].
Qed.

Lemma add_entry_amount_not_validated_witness :
  rejected
    (add_entry strptime_Ymd None (Some (py "2022-13-45")) None None a_day
       one_income)
    one_income
  ∧ -5 ≤ 0
  ∧ add_entry strptime_Ymd (Some INCOME) (Some (py "2022-01-01")) (Some (-5))
      (Some (py "Test income")) a_day empty_wallet
    = (Return tt,
       appended empty_wallet (-5)
         (mkRow (Timestamp (mkDate 2022 1 1)) INCOME (-5) (py "Test income")),
       []).
Proof.
  split.
  { exact (proj1 (add_entry_amount_not_validated strptime_Ymd None
                    (Some (py "2022-13-45")) None a_day one_income)). }
  split; [discriminate|].
  refine (proj1 (proj2 (add_entry_amount_not_validated strptime_Ymd
    (Some INCOME) (Some (py "2022-01-01")) (Some (py "Test income"))
    a_day empty_wallet) (-5) (Timestamp (mkDate 2022 1 1)) _ _ _ _)).
  - discriminate.
  - reflexivity.
  - apply Nat.ltb_lt. reflexivity.
  - reflexivity.
Defined.

(** ** C3: the edit of the repository's test *)

(** C3, as stated, fails: after [edit_entry(0, category=EXPENSE, amount=50)]
    on the wallet with one income of 100, row 0 is not an expense. *)
Lemma edit_to_expense_keeps_category :
  ¬ ∃ w' out r,
      edit_entry strptime_Ymd 0 (Some EXPENSE) None (Some 50) None one_income
      = (Return tt, w', out)
      ∧ balance w' = 50
      ∧ data w' !! 0%nat = Some r
      ∧ category r = EXPENSE ∧ amount r = 50.
Proof.
  intros (w' & out & r & H & _ & Hr & Hc & _).
  vm_compute in H. injection H as <- _.
  injection Hr as <-. discriminate.
Qed.

(** C3, amended: from a wallet whose only row is an income of 100, with
    balance 100, [edit_entry(0, category=EXPENSE, amount=50)] leaves balance
    50 and row 0 with amount 50; the row stays an income, because the
    change of category is refused (as an expense of 50 in place of the
    income of 100 the row would bring the balance to 100 - 100 - 50 < 0),
    and the table is saved. *)
Theorem edit_to_expense_50 (to_datetime : str → option Date)
    (d : DateCell) (text_ : str) (st : option (list Row)) :
  edit_entry to_datetime 0 (Some EXPENSE) None (Some 50) None
    (mkWallet [mkRow d INCOME 100 text_] 100 st)
  = (Return tt,
     mkWallet [mkRow d INCOME 50 text_] 50 (Some [mkRow d INCOME 50 text_]),
     []).
Proof.
  change 0 with (Z.of_nat 0).
  by rewrite (edit_entry_run _ _ _ _ _ _ _ (mkRow d INCOME 100 text_)).
Qed.

(** ** C4: an expense above the balance *)

(** C4: [add_entry] with the category of expenses, valid other fields and an
    amount above the balance reports insufficient funds and leaves the
    wallet as it was: same balance, same rows, nothing saved. *)
Theorem expense_above_balance_rejected (to_datetime : str → option Date)
    (new_date new_description : option str) (a : Z) (today : Date)
    (w : Wallet) :
  truthy new_description = true →
  (length (text new_description) < MAX_DESC_LENGTH)%nat →
  balance w < a →
  add_entry to_datetime (Some EXPENSE) new_date (Some a) new_description
    today w
  = (Return tt, w, [InsufficientFunds; CheckData]).
Proof.
  intros Hd Hlen Hb. apply add_entry_expense_insufficient; [|done].
  unfold fields_ok. by rewrite Hd, bool_decide_true.
Qed.

Lemma expense_above_balance_rejected_witness :
  balance one_income < 101
  ∧ add_entry strptime_Ymd (Some EXPENSE) (Some (py "2022-01-02")) (Some 101)
      (Some (py "Rent")) a_day one_income
    = (Return tt, one_income, [InsufficientFunds; CheckData]).
Proof.
  split; [reflexivity|].
  apply expense_above_balance_rejected.
  - reflexivity.
  - apply Nat.ltb_lt. reflexivity.
  - reflexivity.
Defined.

(** ** C5: the date of a new entry *)

(** C5 holds for a text that is a day of the calendar and for a text that
    does not start as [DATE_PATTERN] asks, and breaks in between.
    ["2022-13-45"] matches the pattern, so it goes to [pd.to_datetime],
    which raises [ValueError]; [add_entry] catches [TypeError] only, and by
    then the balance changer has run: the call ends in the exception with
    the balance raised by 100 and no row for it. *)
Theorem add_entry_month_13 (today : Date) :
  add_entry strptime_Ymd (Some INCOME) (Some (py "2022-13-45")) (Some 100)
    (Some (py "Test income")) today empty_wallet
  = (Raise ValueError, mkWallet [] 100 None, []).
Proof. reflexivity. Qed.

(** ** C6: the fields of an edit *)

(** C6 breaks on a date that matches the pattern and is no day of the
    calendar.  In [edit_entry(1, INCOME, "2022-13-45", 20, "Gift")] on a
    wallet with an income of 100 and an expense of 10, every field passes
    its own test; the category is applied, then [pd.to_datetime] raises
    [ValueError], which [edit_entry] does not catch: the amount and the
    description are not applied, the balance stays 90 while the rows now
    account for 110, and nothing is saved. *)
Theorem edit_entry_month_13 :
  edit_entry strptime_Ymd 1 (Some INCOME) (Some (py "2022-13-45")) (Some 20)
    (Some (py "Gift")) income_and_expense
  = (Raise ValueError,
     mkWallet
       [ mkRow (Timestamp (mkDate 2022 1 1)) INCOME 100 (py "Test income");
         mkRow (Timestamp (mkDate 2022 1 2)) INCOME 10 (py "Bread") ]
       90 (stored income_and_expense),
     []).
Proof. reflexivity. Qed.

(** ** C7: a category that is not recognised *)

(** C7: [add_entry] with a category that is not empty and is neither of the
    two recognised ones returns after reporting one error, and leaves the
    wallet as it was: same balance, same rows, nothing saved. *)
Theorem unknown_category_rejected (to_datetime : str → option Date)
    (new_category new_date : option str) (amt : option Z)
    (new_description : option str) (today : Date) (w : Wallet) :
  truthy new_category = true →
  text new_category ∉ CATEGORIES →
  ∃ msg,
    add_entry to_datetime new_category new_date amt new_description today w
    = (Return tt, w, [msg]).
Proof.
  intros Hc Hn.
  destruct (fields_ok new_category new_description) eqn:Hok.
  - exists RequiredFields. by apply add_entry_unknown.
  - exists CheckData. by apply add_entry_fields_bad.
Qed.

Lemma unknown_category_rejected_witness :
  truthy (Some (py "Invalid category")) = true
  ∧ (text (Some (py "Invalid category")) ∉ CATEGORIES)
  ∧ (∃ msg,
      add_entry strptime_Ymd (Some (py "Invalid category"))
        (Some (py "2022-01-01")) (Some 100) (Some (py "Test income"))
        a_day empty_wallet
      = (Return tt, empty_wallet, [msg])).
Proof.
  assert (text (Some (py "Invalid category")) ∉ CATEGORIES) as Hn.
  { intros [H|H]%elem_of_CATEGORIES; discriminate H. }
  split; [reflexivity|]. split; [exact Hn|].
  apply unknown_category_rejected; [reflexivity|exact Hn].
Defined.

(** ** C9: what a new entry does to the rows *)

(** C9: a call of [add_entry] that succeeds appends exactly one row, made of
    the values that were passed, under the label that is the number of rows
    there were, and every row that was there is still there under its label,
    unchanged. *)
Theorem add_entry_appends_one_row (to_datetime : str → option Date)
    (new_category new_date : option str) (amt : option Z)
    (new_description : option str) (today : Date) (w w' : Wallet) :
  add_entry to_datetime new_category new_date amt new_description today w
  = (Return tt, w', []) →
  ∃ row,
    data w' = data w ++ [row]
    ∧ length (data w') = S (length (data w))
    ∧ data w' !! length (data w) = Some row
    ∧ (∀ i r, data w !! i = Some r → data w' !! i = Some r)
    ∧ Some (category row) = new_category
    ∧ Some (amount row) = amt
    ∧ Some (description row) = new_description
    ∧ Some (date row) = entry_date to_datetime new_date today.
Proof.
  intros H.
  apply add_entry_success_inv in H as (cell & a & Hf & -> & Hd & _ & ->).
  exists (mkRow cell (text new_category) a (text new_description)).
  cbn [appended data category amount description date].
  split_and!; try done.
  - rewrite length_app. cbn. lia.
  - by rewrite lookup_app_r, Nat.sub_diag.
  - intros i r Hi. by apply lookup_app_l_Some.
  - symmetry. by eapply fields_ok_category.
  - symmetry. apply truthy_text. unfold fields_ok in Hf.
    by apply andb_true_iff in Hf as [[_ ?]%andb_true_iff _].
Qed.

Lemma add_entry_appends_one_row_witness :
  add_entry strptime_Ymd (Some EXPENSE) None (Some 30) (Some (py "Bread"))
    a_day one_income
  = (Return tt,
     appended one_income 70 (mkRow (DateOnly a_day) EXPENSE 30 (py "Bread")),
     [])
  ∧ ∃ row,
      data (appended one_income 70
              (mkRow (DateOnly a_day) EXPENSE 30 (py "Bread")))
      = data one_income ++ [row]
      ∧ category row = EXPENSE ∧ amount row = 30.
Proof.
  split; [reflexivity|].
  destruct (add_entry_appends_one_row strptime_Ymd (Some EXPENSE) None
              (Some 30) (Some (py "Bread")) a_day one_income
              (appended one_income 70
                 (mkRow (DateOnly a_day) EXPENSE 30 (py "Bread")))
              eq_refl)
    as (row & Hrows & _ & _ & _ & Hc & Ha & _).
  exists row. split; [exact Hrows|].
  split; [by injection Hc | by injection Ha].
Defined.

(** ** Searching *)

(** The rows a mask selects: those whose bit is set, under their labels. *)
Lemma select_spec (rows : list Row) (mask : list bool) (i : nat) (r : Row) :
  (i, r) ∈ select rows mask ↔ rows !! i = Some r ∧ mask !! i = Some true.
Proof.
  unfold select. rewrite list_elem_of_fmap. split.
  - intros ([j [r' m]] & [= -> ->] & [Hm Hin]%list_elem_of_filter).
    apply elem_of_lookup_imap in Hin as (k & [r'' m'] & [= -> -> ->] & Hz).
    apply lookup_zip_Some in Hz. cbn in Hm. by subst m'.
  - intros [Hr Hm]. exists (i, (r, true)). split; [done|].
    apply list_elem_of_filter. split; [done|].
    apply elem_of_lookup_imap. exists i, (r, true). split; [done|].
    by apply lookup_zip_Some.
Qed.

(** The same for a mask computed row by row. *)
Lemma select_test_spec (rows : list Row) (test : Row → bool) (i : nat)
    (r : Row) :
  (i, r) ∈ select rows (test <$> rows) ↔ rows !! i = Some r ∧ test r = true.
Proof.
  rewrite select_spec, list_lookup_fmap. split.
  - intros [Hr Hm]. rewrite Hr in Hm. by injection Hm.
  - intros [Hr Hm]. rewrite Hr. cbn. by rewrite Hm.
Qed.

Section Search.

Variable date_eq : list DateCell → str → option (list bool).

Lemma search_entries_index i c d a w :
  search_entries date_eq (Some i) c d a w = lookup_result i w.
Proof.
  unfold search_entries, try_except, lookup_result, loc. run.
  case_bool_decide; [|by run].
  destruct (data w !! Z.to_nat i); by run.
Qed.

Lemma search_entries_category c d a w :
  truthy c = true →
  search_entries date_eq None c d a w
  = (Return (Some (select (data w)
       ((λ r, bool_decide (category r = text c)) <$> data w))), w, []).
Proof. intros H. unfold search_entries, try_except. run. by rewrite H. Qed.

Lemma search_entries_date c d a w :
  truthy c = false → truthy d = true →
  search_entries date_eq None c d a w
  = match date_eq (date <$> data w) (text d) with
    | Some mask => (Return (Some (select (data w) mask)), w, [])
    | None => (Return None, w, [CheckInput])
    end.
Proof.
  intros Hc Hd. unfold search_entries, try_except. run. rewrite Hc, Hd.
  destruct (date_eq _ _); by run.
Qed.

Lemma search_entries_amount c d x w :
  truthy c = false → truthy d = false → x ≠ 0 →
  search_entries date_eq None c d (Some x) w
  = (Return (Some (select (data w)
       ((λ r, bool_decide (amount r = x)) <$> data w))), w, []).
Proof.
  intros Hc Hd Hx. unfold search_entries, try_except. run. rewrite Hc, Hd.
  cbn [truthy_num]. apply Z.eqb_neq in Hx. by rewrite Hx.
Qed.

Lemma search_entries_nothing c d a w :
  truthy c = false → truthy d = false → truthy_num a = false →
  search_entries date_eq None c d a w = (Return None, w, []).
Proof.
  intros Hc Hd Ha. unfold search_entries, try_except. run. rewrite Hc, Hd.
  destruct a; [by rewrite Ha|done].
Qed.

End Search.

(** ** C8: one criterion per search *)

(** [search_entries] uses the first criterion that is supplied, in the
    order index, category, date, amount, whatever the later ones are.  An
    index gives back the one row under that label, or reports an error and
    gives back nothing when there is no such label.  A category or an amount
    gives back exactly the rows equal to it on that column, each under its
    label; a date gives back the rows that the comparison of pandas marks.
    Supplied means: an index that is not [None]; a text that is not empty;
    an amount that is not zero. *)
Theorem search_entries_first_criterion
    (date_eq : list DateCell → str → option (list bool))
    (index : option Z) (c d : option str) (a : option Z) (w : Wallet) :
  (∀ i r, index = Some i → 0 ≤ i → data w !! Z.to_nat i = Some r →
     search_entries date_eq index c d a w
     = (Return (Some [(Z.to_nat i, r)]), w, []))
  ∧ (∀ i, index = Some i → i < 0 ∨ data w !! Z.to_nat i = None →
       search_entries date_eq index c d a w = (Return None, w, [CheckInput]))
  ∧ (index = None → truthy c = true →
     ∃ frame,
       search_entries date_eq index c d a w = (Return (Some frame), w, [])
       ∧ ∀ n r, (n, r) ∈ frame ↔ data w !! n = Some r ∧ category r = text c)
  ∧ (index = None → truthy c = false → truthy d = true →
     ∀ mask, date_eq (date <$> data w) (text d) = Some mask →
     ∃ frame,
       search_entries date_eq index c d a w = (Return (Some frame), w, [])
       ∧ ∀ n r, (n, r) ∈ frame ↔ data w !! n = Some r ∧ mask !! n = Some true)
  ∧ (index = None → truthy c = false → truthy d = false →
     ∀ x, a = Some x → x ≠ 0 →
     ∃ frame,
       search_entries date_eq index c d a w = (Return (Some frame), w, [])
       ∧ ∀ n r, (n, r) ∈ frame ↔ data w !! n = Some r ∧ amount r = x).
Proof.
  split_and!.
  - intros i r -> Hi Hr. rewrite search_entries_index. unfold lookup_result.
    by rewrite bool_decide_true, Hr.
  - intros i -> Hi. rewrite search_entries_index. unfold lookup_result.
    case_bool_decide; [|done]. destruct Hi as [Hi| ->]; [lia|done].
  - intros -> Hc. eexists. split; [by apply search_entries_category|].
    intros n r. rewrite select_test_spec. by rewrite bool_decide_eq_true.
  - intros -> Hc Hd mask Hm. eexists.
    split; [by rewrite search_entries_date, Hm|].
    intros n r. apply select_spec.
  - intros -> Hc Hd x -> Hx. eexists.
    split; [by apply search_entries_amount|].
    intros n r. rewrite select_test_spec. by rewrite bool_decide_eq_true.
Qed.

Lemma search_entries_first_criterion_witness :
  truthy (Some INCOME) = true
  ∧ ∃ frame,
      search_entries text_date_eq None (Some INCOME) (Some (py "2022-01-01"))
        (Some 150) two_incomes
      = (Return (Some frame), two_incomes, [])
      ∧ ∀ n r,
          (n, r) ∈ frame
          ↔ data two_incomes !! n = Some r ∧ category r = INCOME.
Proof.
  split; [reflexivity|].
  apply (search_entries_first_criterion text_date_eq None (Some INCOME)
           (Some (py "2022-01-01")) (Some 150) two_incomes);
    reflexivity.
Defined.

(** C8, at an input where the code does not return the rows equal on the
    date.  On a new wallet, [add_entry] without a date stores what
    [pd.Timestamp.now().date()] reads, a [datetime.date], and the column of
    dates is a column of Python objects.  A search by the text of that very
    date compares the cell with the text; between a date and a text Python's
    [==] is [False]; so the search gives back an empty table, and the row
    entered today is not found by today's date. *)
Theorem search_by_date_misses_todays_row :
  let w :=
    appended empty_wallet 100
      (mkRow (DateOnly (mkDate 2026 11 3)) INCOME 100 (py "Test income")) in
  add_entry strptime_Ymd (Some INCOME) None (Some 100)
    (Some (py "Test income")) (mkDate 2026 11 3) empty_wallet
  = (Return tt, w, [])
  ∧ search_entries text_date_eq None None (Some (py "2026-11-03")) None w
    = (Return (Some []), w, []).
Proof. split; reflexivity. Qed.

(** ** C10: values that are falsy *)




(** * Further properties of the wallet *)

(** ** Editing *)

(** X1: [edit_entry] on a label that is not in the index, negative or past
    the last row, reports the wrong record number, returns, and leaves the
    wallet as it was: rows, balance and file. *)
Theorem edit_entry_label_out_of_range (to_datetime : str → option Date)
    (index : Z) (new_category new_date : option str) (amt : option Z)
    (new_description : option str) (w : Wallet) :
  index < 0 ∨ Z.of_nat (length (data w)) ≤ index →
  edit_entry to_datetime index new_category new_date amt new_description w
  = (Return tt, w, [BadRecordNumber]).
Proof.
  intros [H|H]; apply edit_entry_KeyError; [by left|right].
  apply lookup_ge_None. lia.
Qed.

Lemma edit_entry_label_out_of_range_witness :
  (-1 < 0 ∨ Z.of_nat (length (data one_income)) ≤ -1)
  ∧ edit_entry strptime_Ymd (-1) (Some EXPENSE) None (Some 50) None one_income
    = (Return tt, one_income, [BadRecordNumber]).
Proof.
  assert (-1 < 0 ∨ Z.of_nat (length (data one_income)) ≤ -1) as H
    by (left; reflexivity).
  split; [exact H|]. by apply edit_entry_label_out_of_range.
Defined.

(** X2: however a call of [edit_entry] ends, the table keeps its number of
    rows and every row under another label is as it was. *)
Theorem edit_entry_other_rows (to_datetime : str → option Date)
    (index : Z) (new_category new_date : option str) (amt : option Z)
    (new_description : option str) (w : Wallet) :
  let w' :=
    (edit_entry to_datetime index new_category new_date amt new_description
       w).1.2 in
  length (data w') = length (data w)
  ∧ ∀ j, j ≠ Z.to_nat index → data w' !! j = data w !! j.
Proof.
  destruct (edit_entry_two_ways to_datetime index new_category new_date amt
              new_description w) as [[_ E] | (n & r0 & -> & Hl)].
  { by rewrite E. }
  rewrite (edit_entry_run _ _ _ _ _ _ _ r0) by done. cbv zeta.
  rewrite Nat2Z.id.
  destruct (after_date _ _ _); cbn [fst snd data];
    (split; [apply length_insert|]);
    intros j Hj; by apply list_lookup_insert_ne.
Qed.

Lemma edit_entry_other_rows_witness :
  0%nat ≠ Z.to_nat 1
  ∧ data (edit_entry strptime_Ymd 1 (Some INCOME) None (Some 20)
            (Some (py "Gift")) income_and_expense).1.2 !! 0%nat
    = data income_and_expense !! 0%nat.
Proof.
  assert (0%nat ≠ Z.to_nat 1) as H by discriminate.
  split; [exact H|].
  exact (proj2 (edit_entry_other_rows strptime_Ymd 1 (Some INCOME) None
                  (Some 20) (Some (py "Gift")) income_and_expense) 0%nat H).
Defined.

Lemma after_category_nonneg new_category amt r b :
  0 ≤ b → 0 ≤ (after_category new_category amt (r, b)).2.
Proof.
  intros Hb.
  destruct (after_category_cases new_category amt r b)
    as [E | [(c & _ & _ & _ & Hf & E) | (c & a & _ & _ & _ & _ & _ & E)]];
    by rewrite E.
Qed.

Lemma after_amount_nonneg pc amt r b :
  0 ≤ b → 0 ≤ (after_amount pc amt (r, b)).2.
Proof.
  intros Hb. unfold after_amount. destruct amt as [a|]; [|done].
  destruct (truthy_num (Some a)); [|done]. by case_bool_decide.
Qed.

(** X3: [edit_entry] never takes a balance that is not negative below zero,
    however the call ends and whatever the rows hold. *)
Theorem edit_entry_balance_stays_nonneg (to_datetime : str → option Date)
    (index : Z) (new_category new_date : option str) (amt : option Z)
    (new_description : option str) (w : Wallet) :
  0 ≤ balance w →
  0 ≤ balance
        (edit_entry to_datetime index new_category new_date amt
           new_description w).1.2.
Proof.
  intros Hb.
  destruct (edit_entry_two_ways to_datetime index new_category new_date amt
              new_description w) as [[_ E] | (n & r0 & -> & Hl)].
  { by rewrite E. }
  rewrite (edit_entry_run _ _ _ _ _ _ _ r0) by done. cbv zeta.
  destruct (after_date _ _ _); cbn [fst snd balance].
  - apply after_amount_nonneg. by apply after_category_nonneg.
  - by apply after_category_nonneg.
Qed.

Lemma edit_entry_balance_stays_nonneg_witness :
  0 ≤ balance income_and_expense
  ∧ 0 ≤ balance
          (edit_entry strptime_Ymd 0 (Some EXPENSE) None (Some 500) None
             income_and_expense).1.2.
Proof.
  assert (0 ≤ balance income_and_expense) as H by discriminate.
  split; [exact H|]. by apply edit_entry_balance_stays_nonneg.
Defined.

Lemma after_category_falsy new_category amt rb :
  truthy new_category = false → after_category new_category amt rb = rb.
Proof. unfold after_category. destruct rb. by intros ->. Qed.

Lemma column_insert {A} (f : Row → A) (rows : list Row) n r0 r :
  rows !! n = Some r0 → f r = f r0 → f <$> <[n:=r]> rows = f <$> rows.
Proof.
  intros H Hf. rewrite list_fmap_insert, Hf.
  apply list_insert_id. by rewrite list_lookup_fmap, H.
Qed.

(** X4: an edit that supplies no category and no amount (the date and the
    description at most) leaves the balance, the categories and the amounts
    as they were, however the call ends. *)
Theorem edit_entry_date_description_only (to_datetime : str → option Date)
    (index : Z) (new_category new_date : option str) (amt : option Z)
    (new_description : option str) (w : Wallet) :
  truthy new_category = false →
  truthy_num amt = false →
  let w' :=
    (edit_entry to_datetime index new_category new_date amt new_description
       w).1.2 in
  balance w' = balance w
  ∧ category <$> data w' = category <$> data w
  ∧ amount <$> data w' = amount <$> data w.
Proof.
  intros Hc Ha.
  destruct (edit_entry_two_ways to_datetime index new_category new_date amt
              new_description w) as [[_ E] | (n & r0 & -> & Hl)].
  { by rewrite E. }
  rewrite (edit_entry_run _ _ _ _ _ _ _ r0) by done. cbv zeta.
  rewrite after_category_falsy by done. cbn [fst snd].
  destruct (after_date _ _ _) as [r2|] eqn:Hd; cbn [fst snd balance data].
  - apply after_date_fields in Hd as [Hc2 Ha2].
    rewrite after_amount_falsy by done. cbn [fst snd].
    split_and!; [done| |].
    + apply (column_insert _ _ _ r0); [done|].
      by rewrite category_after_description.
    + apply (column_insert _ _ _ r0); [done|].
      by rewrite amount_after_description.
  - by rewrite list_insert_id.
Qed.

Lemma edit_entry_date_description_only_witness :
  truthy None = false ∧ truthy_num None = false
  ∧ balance (edit_entry strptime_Ymd 0 None (Some (py "2023-05-06")) None
               (Some (py "Salary")) one_income).1.2
    = balance one_income.
Proof.
  split; [reflexivity|]. split; [reflexivity|].
  exact (proj1 (edit_entry_date_description_only strptime_Ymd 0 None
                  (Some (py "2023-05-06")) None (Some (py "Salary"))
                  one_income eq_refl eq_refl)).
Defined.

Lemma truthy_CATEGORIES c : c ∈ CATEGORIES → truthy (Some c) = true.
Proof. by intros [-> | ->]%elem_of_CATEGORIES. Qed.

Lemma after_date_None to_datetime r : after_date to_datetime None r = Some r.
Proof. reflexivity. Qed.

(** An edit of the category alone. *)
Lemma edit_entry_category_only_run to_datetime n c w r0 :
  data w !! n = Some r0 → c ∈ CATEGORIES → c ≠ category r0 →
  edit_entry to_datetime (Z.of_nat n) (Some c) None None None w
  = (Return tt,
     (if bool_decide (0 ≤ fake c (balance w) (amount r0) (amount r0))
      then saved_with w n (with_category c r0)
             (fake c (balance w) (amount r0) (amount r0))
      else mkWallet (data w) (balance w) (Some (data w))),
     []).
Proof.
  intros Hl Hc Hne.
  rewrite (edit_entry_run _ _ _ _ _ _ _ r0) by done. cbv zeta.
  unfold after_category. cbn [text truthy_num].
  rewrite truthy_CATEGORIES, !bool_decide_true by done. cbn [andb].
  case_bool_decide; cbn [fst snd]; rewrite after_date_None; [done|].
  cbn [after_amount after_description truthy andb fst snd].
  by rewrite list_insert_id.
Qed.



(** X6: an edit of the amount alone replaces what the row brought to the
    balance by what it brings with the new amount: for an expense the
    balance gains the old amount and loses the new one, for any other row it
    loses the old amount and gains the new one.  It is applied when the
    balance it gives is not negative; otherwise the row and the balance
    stay.  The table is saved in both cases. *)
Theorem edit_entry_amount_only (to_datetime : str → option Date)
    (n : nat) (a : Z) (w : Wallet) (r0 : Row) :
  data w !! n = Some r0 →
  a ≠ 0 →
  let b' :=
    if decide (category r0 = EXPENSE) then balance w + amount r0 - a
    else balance w - amount r0 + a in
  edit_entry to_datetime (Z.of_nat n) None None (Some a) None w
  = (Return tt,
     (if bool_decide (0 ≤ b') then saved_with w n (with_amount a r0) b'
      else mkWallet (data w) (balance w) (Some (data w))),
     []).
Proof.
  intros Hl Ha b'.
  rewrite (edit_entry_run _ _ _ _ _ _ _ r0) by done. cbv zeta.
  rewrite after_category_falsy, after_date_None by done. cbn [fst snd].
  rewrite after_amount_truthy by (cbn; by apply negb_true_iff, Z.eqb_neq).
  cbv zeta. rewrite decide_True, pow_m1_1 by done.
  replace (fake _ _ _ _) with b' by (unfold b', fake; case_decide; lia).
  case_bool_decide; cbn [fst snd after_description truthy andb]; [done|].
  by rewrite list_insert_id.
Qed.

Lemma edit_entry_amount_only_witness :
  data one_income !! 0%nat
  = Some (mkRow (Timestamp (mkDate 2022 1 1)) INCOME 100 (py "Test income"))
  ∧ 30 ≠ 0
  ∧ edit_entry strptime_Ymd 0 None None (Some 30) None one_income
    = (Return tt,
       saved_with one_income 0
         (mkRow (Timestamp (mkDate 2022 1 1)) INCOME 30 (py "Test income")) 30,
       []).
Proof.
  split; [reflexivity|]. split; [discriminate|].
  by refine (edit_entry_amount_only strptime_Ymd 0 30 one_income
               (mkRow (Timestamp (mkDate 2022 1 1)) INCOME 100
                  (py "Test income")) eq_refl _).
Defined.

(** X7: when the balance is not negative, an edit that changed the category
    of a row can always be undone: the edit back to the category there was
    is accepted, and the rows, in memory and in the file, are those there
    were before the two edits. *)
Theorem edit_entry_category_there_and_back (to_datetime : str → option Date)
    (n : nat) (c : str) (w : Wallet) (r0 : Row) :
  data w !! n = Some r0 →
  category r0 ∈ CATEGORIES →
  c ∈ CATEGORIES →
  c ≠ category r0 →
  0 ≤ balance w →
  let w1 :=
    (edit_entry to_datetime (Z.of_nat n) (Some c) None None None w).1.2 in
  data w1 !! n = Some (with_category c r0) →
  ∃ b,
    edit_entry to_datetime (Z.of_nat n) (Some (category r0)) None None None w1
    = (Return tt, mkWallet (data w) b (Some (data w)), []).
Proof.
  intros Hl H0 Hc Hne Hb.
  rewrite (edit_entry_category_only_run _ _ _ _ r0) by done. cbn [fst snd].
  case_bool_decide as Hf; cbn [data].
  2:{ rewrite Hl. intros [= E]. destruct Hne. by rewrite E. }
  intros Hl1. exists (balance w).
  rewrite (edit_entry_category_only_run _ _ _ _ (with_category c r0))
    by done.
  cbn [saved_with balance data with_category category amount].
  assert (fake (category r0)
            (fake c (balance w) (amount r0) (amount r0)) (amount r0) (amount r0)
          = balance w) as ->.
  { rewrite !fake_sgn, (sgn_flip (category r0) c) by done.
    destruct (sgn_cases (category r0)) as [-> | ->]; lia. }
  case_bool_decide; [|done]. unfold saved_with. cbn [data].
  rewrite list_insert_insert_eq.
  replace (with_category (category r0) (with_category c r0)) with r0
    by (by destruct r0).
  by rewrite list_insert_id.
Qed.

Lemma edit_entry_category_there_and_back_witness :
  0 ≤ balance income_and_expense
  ∧ ∃ b,
      edit_entry strptime_Ymd 1 (Some EXPENSE) None None None
        (edit_entry strptime_Ymd 1 (Some INCOME) None None None
           income_and_expense).1.2
      = (Return tt,
         mkWallet (data income_and_expense) b
           (Some (data income_and_expense)),
         []).
Proof.
  assert (0 ≤ balance income_and_expense) as Hb by discriminate.
  split; [exact Hb|].
  refine (edit_entry_category_there_and_back strptime_Ymd 1 INCOME
            income_and_expense
            (mkRow (Timestamp (mkDate 2022 1 2)) EXPENSE 10 (py "Bread"))
            eq_refl _ _ _ Hb eq_refl).
  - apply elem_of_CATEGORIES. by right.
  - apply elem_of_CATEGORIES. by left.
  - discriminate.
Defined.

Lemma after_category_keeps {A} (f : Row → A) new_category amt r b :
  (∀ c r, f (with_category c r) = f r) →
  f (after_category new_category amt (r, b)).1 = f r.
Proof.
  intros Hf.
  destruct (after_category_cases new_category amt r b)
    as [E | [(c & _ & _ & _ & _ & E) | (c & a & _ & _ & _ & _ & _ & E)]];
    rewrite E; cbn [fst]; auto.
Qed.

Lemma after_amount_keeps {A} (f : Row → A) pc amt r b :
  (∀ a r, f (with_amount a r) = f r) →
  f (after_amount pc amt (r, b)).1 = f r.
Proof.
  intros Hf. unfold after_amount. destruct amt as [a|]; [|done].
  destruct (truthy_num (Some a)); [|done].
  case_bool_decide; cbn [fst]; auto.
Qed.

(** X8: when a call of [edit_entry] on a row returns, the description of the
    row is the new one if that is not empty and shorter than 64 characters,
    and the old one otherwise; its date is the day the new text denotes if
    that text starts as the pattern asks, and the old one otherwise; this
    whatever became of the category and the amount.  The table was saved and
    nothing was printed. *)
Theorem edit_entry_description_and_date (to_datetime : str → option Date)
    (n : nat) (new_category new_date : option str) (amt : option Z)
    (new_description : option str) (w w' : Wallet) (r0 : Row)
    (out : list Message) :
  data w !! n = Some r0 →
  edit_entry to_datetime (Z.of_nat n) new_category new_date amt
    new_description w
  = (Return tt, w', out) →
  ∃ r',
    data w' !! n = Some r'
    ∧ description r'
      = (if truthy new_description
            && bool_decide (length (text new_description) < MAX_DESC_LENGTH)%nat
         then text new_description else description r0)
    ∧ date r'
      = (if truthy new_date && match_DATE_PATTERN (text new_date)
         then match to_datetime (text new_date) with
              | Some d => Timestamp d
              | None => date r0
              end
         else date r0)
    ∧ stored w' = Some (data w')
    ∧ out = [].
Proof.
  intros Hl. rewrite (edit_entry_run _ _ _ _ _ _ _ r0) by done. cbv zeta.
  destruct (after_date _ _ _) as [r2|] eqn:Hd; [|done].
  assert (description r2 = description r0
          ∧ date r2
            = (if truthy new_date && match_DATE_PATTERN (text new_date)
               then match to_datetime (text new_date) with
                    | Some d => Timestamp d
                    | None => date r0
                    end
               else date r0)) as [Hdesc Hdate].
  { revert Hd. unfold after_date. destruct (_ && _).
    - destruct (to_datetime _); [|done]. intros [= <-].
      split; [|done]. cbn [with_date description].
      by apply (after_category_keeps description).
    - intros [= <-].
      split; [by apply (after_category_keeps description)
             |by apply (after_category_keeps date)]. }
  pose proof (after_amount_keeps description (category r0) amt r2
                (after_category new_category amt (r0, balance w)).2
                (λ _ _, eq_refl)) as Hdesc3.
  pose proof (after_amount_keeps date (category r0) amt r2
                (after_category new_category amt (r0, balance w)).2
                (λ _ _, eq_refl)) as Hdate3.
  revert Hdesc3 Hdate3.
  generalize (after_amount (category r0) amt
                (r2, (after_category new_category amt (r0, balance w)).2)).
  intros rb3 Hdesc3 Hdate3 [= <- <-].
  exists (after_description new_description rb3.1). cbn [data stored].
  split; [apply list_lookup_insert_eq; by eapply lookup_lt_Some|].
  split_and!; [| |done|done].
  - unfold after_description.
    destruct (truthy new_description && _); [done|]. congruence.
  - rewrite <- Hdate, <- Hdate3. unfold after_description.
    by destruct (truthy new_description && _).
Qed.

Lemma edit_entry_description_and_date_witness :
  data one_income !! 0%nat
  = Some (mkRow (Timestamp (mkDate 2022 1 1)) INCOME 100 (py "Test income"))
  ∧ ∃ r',
      data (edit_entry strptime_Ymd 0 (Some EXPENSE) (Some (py "2023-05-06"))
              (Some 500) (Some (py "Salary")) one_income).1.2 !! 0%nat
      = Some r'
      ∧ description r' = py "Salary"
      ∧ date r' = Timestamp (mkDate 2023 5 6).
Proof.
  split; [reflexivity|].
  destruct (edit_entry_description_and_date strptime_Ymd 0 (Some EXPENSE)
              (Some (py "2023-05-06")) (Some 500) (Some (py "Salary"))
              one_income _ _ _ eq_refl eq_refl)
    as (r' & Hr & Hd & Hdate & _).
  exists r'. split; [exact Hr|]. split; [exact Hd|exact Hdate].
Defined.

(** X9: [edit_entry] on a row that exists, with a date that starts as the
    pattern asks and that [pd.to_datetime] refuses, ends in the [ValueError]
    of pandas, which it does not catch.  The category step has run and what
    it did to the row and to the balance stays; nothing was printed, the
    table was not saved, and the dates, the amounts and the descriptions are
    as they were, whatever amount and description were given. *)
Theorem edit_entry_date_refused (to_datetime : str → option Date)
    (n : nat) (new_category new_date : option str) (amt : option Z)
    (new_description : option str) (w : Wallet) (r0 : Row) :
  data w !! n = Some r0 →
  truthy new_date = true →
  match_DATE_PATTERN (text new_date) = true →
  to_datetime (text new_date) = None →
  ∃ w',
    edit_entry to_datetime (Z.of_nat n) new_category new_date amt
      new_description w
    = (Raise ValueError, w', [])
    ∧ (data w' !! n, balance w')
      = (Some (after_category new_category amt (r0, balance w)).1,
         (after_category new_category amt (r0, balance w)).2)
    ∧ stored w' = stored w
    ∧ date <$> data w' = date <$> data w
    ∧ amount <$> data w' = amount <$> data w
    ∧ description <$> data w' = description <$> data w.
Proof.
  intros Hl Ht Hm Hp.
  rewrite (edit_entry_run _ _ _ _ _ _ _ r0) by done. cbv zeta.
  unfold after_date. rewrite Ht, Hm, Hp. cbn [andb fmap option_fmap option_map].
  eexists. split; [reflexivity|]. cbn [data balance stored].
  split_and!; [|done|..].
  - rewrite list_lookup_insert_eq; [done|]. by eapply lookup_lt_Some.
  - apply (column_insert _ _ _ r0); [done|].
    by apply (after_category_keeps date).
  - apply (column_insert _ _ _ r0); [done|].
    by apply (after_category_keeps amount).
  - apply (column_insert _ _ _ r0); [done|].
    by apply (after_category_keeps description).
Qed.

Lemma edit_entry_date_refused_witness :
  strptime_Ymd (text (Some (py "2022-13-45"))) = None
  ∧ ∃ w',
      edit_entry strptime_Ymd 1 (Some INCOME) (Some (py "2022-13-45"))
        (Some 20) (Some (py "Gift")) income_and_expense
      = (Raise ValueError, w', [])
      ∧ stored w' = stored income_and_expense
      ∧ amount <$> data w' = [100; 10].
Proof.
  split; [reflexivity|].
  destruct (edit_entry_date_refused strptime_Ymd 1 (Some INCOME)
              (Some (py "2022-13-45")) (Some 20) (Some (py "Gift"))
              income_and_expense
              (mkRow (Timestamp (mkDate 2022 1 2)) EXPENSE 10 (py "Bread"))
              eq_refl eq_refl eq_refl eq_refl)
    as (w' & E & _ & Hst & _ & Ha & _).
  exists w'. split; [exact E|]. split; [exact Hst|exact Ha].
Defined.

(** ** Adding *)

Lemma fields_ok_valid c new_description :
  c ∈ CATEGORIES →
  truthy new_description = true →
  (length (text new_description) < MAX_DESC_LENGTH)%nat →
  fields_ok (Some c) new_description = true.
Proof.
  intros Hc Hd Hlen. unfold fields_ok.
  by rewrite truthy_CATEGORIES, Hd, bool_decide_true.
Qed.

(** X10: [add_entry] of an income with a valid description, and a date that
    is absent, does not start as the pattern asks, or is one pandas parses,
    always succeeds: the row is appended, the balance grows by the amount,
    the table is saved and nothing is printed. *)
Theorem add_entry_income_accepted (to_datetime : str → option Date)
    (new_date new_description : option str) (a : Z) (cell : DateCell)
    (today : Date) (w : Wallet) :
  truthy new_description = true →
  (length (text new_description) < MAX_DESC_LENGTH)%nat →
  entry_date to_datetime new_date today = Some cell →
  add_entry to_datetime (Some INCOME) new_date (Some a) new_description
    today w
  = (Return tt,
     appended w (balance w + a) (mkRow cell INCOME a (text new_description)),
     []).
Proof.
  intros Hd Hlen Hcell. apply add_entry_income; [|done].
  apply fields_ok_valid; [|done|done]. apply elem_of_CATEGORIES. by left.
Qed.

Lemma add_entry_income_accepted_witness :
  entry_date strptime_Ymd (Some (py "2022-01-01")) a_day
  = Some (Timestamp (mkDate 2022 1 1))
  ∧ add_entry strptime_Ymd (Some INCOME) (Some (py "2022-01-01")) (Some 100)
      (Some (py "Test income")) a_day empty_wallet
    = (Return tt,
       appended empty_wallet 100
         (mkRow (Timestamp (mkDate 2022 1 1)) INCOME 100 (py "Test income")),
       []).
Proof.
  split; [reflexivity|].
  apply (add_entry_income_accepted strptime_Ymd (Some (py "2022-01-01"))
           (Some (py "Test income")) 100 (Timestamp (mkDate 2022 1 1)) a_day
           empty_wallet).
  - reflexivity.
  - apply Nat.ltb_lt. reflexivity.
  - reflexivity.
Defined.

(** X11: [add_entry] of an expense with valid other fields succeeds exactly
    when the amount is at most the balance, the amount equal to the balance
    included: then the row is appended, the balance drops by the amount and
    the table is saved; otherwise insufficient funds are reported and
    nothing changes. *)
Theorem add_entry_expense_up_to_balance (to_datetime : str → option Date)
    (new_date new_description : option str) (a : Z) (cell : DateCell)
    (today : Date) (w : Wallet) :
  truthy new_description = true →
  (length (text new_description) < MAX_DESC_LENGTH)%nat →
  entry_date to_datetime new_date today = Some cell →
  add_entry to_datetime (Some EXPENSE) new_date (Some a) new_description
    today w
  = if bool_decide (a ≤ balance w)
    then (Return tt,
          appended w (balance w - a)
            (mkRow cell EXPENSE a (text new_description)),
          [])
    else (Return tt, w, [InsufficientFunds; CheckData]).
Proof.
  intros Hd Hlen Hcell.
  assert (fields_ok (Some EXPENSE) new_description = true) as Hf.
  { apply fields_ok_valid; [|done|done]. apply elem_of_CATEGORIES. by right. }
  case_bool_decide.
  - apply add_entry_expense; [done|lia|done].
  - apply add_entry_expense_insufficient; [done|lia].
Qed.

Lemma add_entry_expense_up_to_balance_witness :
  entry_date strptime_Ymd None a_day = Some (DateOnly a_day)
  ∧ add_entry strptime_Ymd (Some EXPENSE) None (Some 100) (Some (py "Rent"))
      a_day one_income
    = (Return tt,
       appended one_income 0 (mkRow (DateOnly a_day) EXPENSE 100 (py "Rent")),
       []).
Proof.
  split; [reflexivity|].
  apply (add_entry_expense_up_to_balance strptime_Ymd None (Some (py "Rent"))
           100 (DateOnly a_day) a_day one_income).
  - reflexivity.
  - apply Nat.ltb_lt. reflexivity.
  - reflexivity.
Defined.

(** X12: [add_entry] with a category that is absent or empty, a description
    that is absent or empty, or a description of 64 characters or more asks
    to check the data and changes nothing.  The balance changer is not
    called: no other message is printed, whatever the amount and the date
    are. *)
Theorem add_entry_fields_rejected (to_datetime : str → option Date)
    (new_category new_date : option str) (amt : option Z)
    (new_description : option str) (today : Date) (w : Wallet) :
  truthy new_category = false
  ∨ truthy new_description = false
  ∨ (MAX_DESC_LENGTH ≤ length (text new_description))%nat →
  add_entry to_datetime new_category new_date amt new_description today w
  = (Return tt, w, [CheckData]).
Proof.
  intros H. apply add_entry_fields_bad. unfold fields_ok.
  destruct H as [-> | [-> | H]]; [done|by rewrite andb_false_r|].
  rewrite bool_decide_false by lia. by rewrite andb_false_r.
Qed.

Lemma add_entry_fields_rejected_witness :
  (MAX_DESC_LENGTH ≤ length (text (Some (replicate 64 120%N))))%nat
  ∧ add_entry strptime_Ymd (Some EXPENSE) (Some (py "2022-13-45")) (Some 500)
      (Some (replicate 64 120%N)) a_day one_income
    = (Return tt, one_income, [CheckData]).
Proof.
  assert (MAX_DESC_LENGTH ≤ length (text (Some (replicate 64 120%N))))%nat
    as H by (apply Nat.leb_le; reflexivity).
  split; [exact H|]. apply add_entry_fields_rejected. right; right. exact H.
Defined.

(** X13: [add_entry] with valid fields and a date that starts as the pattern
    asks and that [pd.to_datetime] refuses.  The balance changer runs before
    the date is parsed: an income, or an expense the balance covers, changes
    the balance, and then the call ends in the [ValueError] of pandas, which
    [add_entry] does not catch: no row is added, nothing is saved and
    nothing is printed.  An expense above the balance is refused before the
    date is looked at. *)
Theorem add_entry_date_refused (to_datetime : str → option Date)
    (s : str) (new_description : option str) (a : Z) (today : Date)
    (w : Wallet) :
  truthy new_description = true →
  (length (text new_description) < MAX_DESC_LENGTH)%nat →
  match_DATE_PATTERN s = true →
  to_datetime s = None →
  add_entry to_datetime (Some INCOME) (Some s) (Some a) new_description
    today w
  = (Raise ValueError, mkWallet (data w) (balance w + a) (stored w), [])
  ∧ add_entry to_datetime (Some EXPENSE) (Some s) (Some a) new_description
      today w
    = if bool_decide (a ≤ balance w)
      then (Raise ValueError, mkWallet (data w) (balance w - a) (stored w), [])
      else (Return tt, w, [InsufficientFunds; CheckData]).
Proof.
  intros Hd Hlen Hm Hp.
  assert (entry_date to_datetime (Some s) today = None) as Hcell
    by (unfold entry_date; by rewrite Hm, Hp).
  split.
  - apply add_entry_income_bad_date; [|done].
    apply fields_ok_valid; [|done|done]. apply elem_of_CATEGORIES. by left.
  - assert (fields_ok (Some EXPENSE) new_description = true) as Hf.
    { apply fields_ok_valid; [|done|done]. apply elem_of_CATEGORIES.
      by right. }
    case_bool_decide.
    + apply add_entry_expense_bad_date; [done|lia|done].
    + apply add_entry_expense_insufficient; [done|lia].
Qed.

Lemma add_entry_date_refused_witness :
  strptime_Ymd (py "2022-13-45") = None
  ∧ add_entry strptime_Ymd (Some EXPENSE) (Some (py "2022-13-45")) (Some 40)
      (Some (py "Bread")) a_day one_income
    = (Raise ValueError,
       mkWallet (data one_income) 60 (stored one_income), []).
Proof.
  split; [reflexivity|].
  refine (proj2 (add_entry_date_refused strptime_Ymd (py "2022-13-45")
                   (Some (py "Bread")) 40 a_day one_income _ _ _ _)).
  - reflexivity.
  - apply Nat.ltb_lt. reflexivity.
  - reflexivity.
  - reflexivity.
Defined.

(** ** Searching *)

(** X14: after a call of [add_entry] that succeeded, a search by the index
    that is the number of rows there were gives back the new row and no
    other, whatever the other criteria are. *)
Theorem search_entries_finds_new_row
    (date_eq : list DateCell → str → option (list bool))
    (to_datetime : str → option Date)
    (new_category new_date : option str) (amt : option Z)
    (new_description : option str) (today : Date) (w w' : Wallet)
    (c d : option str) (a : option Z) :
  add_entry to_datetime new_category new_date amt new_description today w
  = (Return tt, w', []) →
  ∃ row,
    search_entries date_eq (Some (Z.of_nat (length (data w)))) c d a w'
    = (Return (Some [(length (data w), row)]), w', [])
    ∧ Some (category row) = new_category
    ∧ Some (amount row) = amt
    ∧ Some (description row) = new_description.
Proof.
  intros H.
  apply add_entry_success_inv in H as (cell & x & Hf & -> & Hd & _ & ->).
  exists (mkRow cell (text new_category) x (text new_description)).
  rewrite search_entries_index. unfold lookup_result.
  rewrite bool_decide_true, Nat2Z.id by lia. cbn [appended data].
  rewrite lookup_app_r, Nat.sub_diag by done.
  cbn [lookup list_lookup category amount description].
  split_and!; try done.
  - symmetry. by eapply fields_ok_category.
  - symmetry. apply truthy_text. unfold fields_ok in Hf.
    by apply andb_true_iff in Hf as [[_ ?]%andb_true_iff _].
Qed.

Lemma search_entries_finds_new_row_witness :
  add_entry strptime_Ymd (Some EXPENSE) None (Some 30) (Some (py "Bread"))
    a_day one_income
  = (Return tt,
     appended one_income 70 (mkRow (DateOnly a_day) EXPENSE 30 (py "Bread")),
     [])
  ∧ ∃ row,
      search_entries text_date_eq (Some 1) (Some INCOME) None None
        (appended one_income 70
           (mkRow (DateOnly a_day) EXPENSE 30 (py "Bread")))
      = (Return (Some [(1%nat, row)]),
         appended one_income 70
           (mkRow (DateOnly a_day) EXPENSE 30 (py "Bread")), [])
      ∧ Some (category row) = Some EXPENSE.
Proof.
  split; [reflexivity|].
  destruct (search_entries_finds_new_row text_date_eq strptime_Ymd
              (Some EXPENSE) None (Some 30) (Some (py "Bread")) a_day
              one_income
              (appended one_income 70
                 (mkRow (DateOnly a_day) EXPENSE 30 (py "Bread")))
              (Some INCOME) None None eq_refl)
    as (row & Hs & Hc & _).
  exists row. split; [exact Hs|exact Hc].
Defined.

(** X15: [search_entries] never changes the wallet and never lets an
    exception out: it returns, having printed nothing, or having asked to
    check the input and then giving back nothing. *)
Theorem search_entries_reads_only
    (date_eq : list DateCell → str → option (list bool))
    (index : option Z) (c d : option str) (a : option Z) (w : Wallet) :
  ∃ res out,
    search_entries date_eq index c d a w = (Return res, w, out)
    ∧ (out = [] ∨ out = [CheckInput] ∧ res = None).
Proof.
  destruct index as [i|].
  { rewrite search_entries_index. unfold lookup_result.
    destruct (if bool_decide (0 ≤ i) then _ else _); eauto 6. }
  destruct (truthy c) eqn:Hc.
  { rewrite search_entries_category by done. eauto. }
  destruct (truthy d) eqn:Hd.
  { rewrite search_entries_date by done. destruct (date_eq _ _); eauto 6. }
  destruct (truthy_num a) eqn:Ha.
  - destruct a as [x|]; [|done].
    rewrite search_entries_amount; [eauto|done|done|].
    cbn in Ha. by apply negb_true_iff, Z.eqb_neq in Ha.
  - rewrite search_entries_nothing by done. eauto.
Qed.

Lemma select_rows_from (P : Row → Prop) `{!∀ r, Decision (P r)}
    (rows : list Row) (g : nat → nat) :
  ((λ x : nat * (Row * bool), (x.1, x.2.1)) <$>
     filter (λ x, x.2.2 = true)
       (imap (λ i x, (g i, x))
          (zip rows ((λ r, bool_decide (P r)) <$> rows)))).*2
  = filter P rows.
Proof.
  revert g. induction rows as [|r rows IH]; intros g; [done|].
  cbn [fmap list_fmap zip zip_with]. rewrite imap_cons.
  rewrite !filter_cons. cbn [fst snd].
  destruct (decide (P r)) as [HP|HP].
  - rewrite bool_decide_true by done. rewrite decide_True by done.
    cbn. f_equal. apply (IH (g ∘ S)).
  - rewrite bool_decide_false by done. rewrite decide_False by done.
    apply (IH (g ∘ S)).
Qed.

(** X16: a search by category gives back the rows of that category, all of
    them, once each and in the order of the table: as many rows as the
    table has of that category. *)
Theorem search_entries_category_rows
    (date_eq : list DateCell → str → option (list bool))
    (c d : option str) (a : option Z) (w : Wallet) :
  truthy c = true →
  ∃ frame,
    search_entries date_eq None c d a w = (Return (Some frame), w, [])
    ∧ frame.*2 = filter (λ r, category r = text c) (data w)
    ∧ length frame = length (filter (λ r, category r = text c) (data w)).
Proof.
  intros Hc. eexists. split; [by apply search_entries_category|].
  assert (∀ (frame : Frame) (rows : list Row), frame.*2 = rows → frame.*2 = rows
            ∧ length frame = length rows) as Hlen.
  { intros frame rows <-. by rewrite length_fmap. }
  apply Hlen. unfold select.
  apply (select_rows_from (λ r, category r = text c)).
Qed.

Lemma search_entries_category_rows_witness :
  truthy (Some INCOME) = true
  ∧ ∃ frame,
      search_entries text_date_eq None (Some INCOME) None None two_incomes
      = (Return (Some frame), two_incomes, [])
      ∧ length frame = 2%nat.
Proof.
  split; [reflexivity|].
  destruct (search_entries_category_rows text_date_eq (Some INCOME) None None
              two_incomes eq_refl) as (frame & Hs & _ & Hlen).
  exists frame. split; [exact Hs|exact Hlen].
Defined.

(** ** Saving *)

(** A call that succeeded has saved the table it leaves. *)
Lemma perform_saves to_datetime c w w' :
  succeeded (perform to_datetime c w) = Some w' → stored w' = Some (data w').
Proof.
  intros Hc%succeeded_inv. destruct c; cbn [perform] in Hc.
  - by apply add_entry_success_inv in Hc as (? & ? & _ & _ & _ & _ & ->).
  - destruct (edit_entry_two_ways to_datetime index new_category new_date
                amt new_description w) as [[_ E] | (n & r0 & -> & Hl)].
    { rewrite E in Hc. discriminate. }
    rewrite (edit_entry_run _ _ _ _ _ _ _ r0) in Hc by done.
    cbv zeta in Hc. destruct (after_date _ _ _); [|done].
    by injection Hc as <-.
Qed.

(** X17: after any sequence of calls of [add_entry] and [edit_entry] that
    all succeeded, on any wallet, the table last written to the file is the
    table the wallet holds, row for row: every call that succeeds ends by
    saving, so that no change it made is left unsaved. *)
Theorem calls_leave_table_saved (to_datetime : str → option Date)
    (calls : list Call) (w w' : Wallet) :
  calls ≠ [] →
  run_calls to_datetime calls w = Some w' →
  stored w' = Some (data w').
Proof.
  intros Hne. revert w.
  induction calls as [|c calls IH]; [done|]. intros w Hrun.
  cbn [run_calls] in Hrun.
  destruct (succeeded (perform to_datetime c w)) as [w1|] eqn:Hc; [|done].
  destruct calls as [|c' calls].
  - injection Hrun as <-. by eapply perform_saves.
  - by apply (IH ltac:(done) w1).
Qed.

Lemma calls_leave_table_saved_witness :
  three_calls ≠ []
  ∧ run_calls strptime_Ymd three_calls empty_wallet = Some after_three_calls
  ∧ stored after_three_calls = Some (data after_three_calls).
Proof.
  assert (three_calls ≠ []) as H1 by discriminate.
  assert (run_calls strptime_Ymd three_calls empty_wallet
          = Some after_three_calls) as H2 by reflexivity.
  split; [exact H1|]. split; [exact H2|].
  exact (calls_leave_table_saved strptime_Ymd three_calls empty_wallet
           after_three_calls H1 H2).
Defined.

(** * Properties of the menu *)

Section MenuProperties.

Context {St V R Pr : Type}.

Implicit Types (options : list (Entry St V R Pr)) (s : St)
  (specs : list (str * (str → option V))) (stdin lines rest : list str)
  (out : list (Printed R Pr)).

Lemma getitem_nonneg {A} (l : list A) (i : nat) :
  getitem l (Z.of_nat i) = l !! i.
Proof. unfold getitem. by rewrite bool_decide_true, Nat2Z.id by lia. Qed.

Lemma getitem_out_of_range {A} (l : list A) (i : Z) :
  i < - Z.of_nat (length l) ∨ Z.of_nat (length l) ≤ i → getitem l i = None.
Proof.
  intros H. unfold getitem. case_bool_decide.
  - apply lookup_ge_None. lia.
  - rewrite bool_decide_false by lia. done.
Qed.

Lemma getitem_negative {A} (l : list A) (i : Z) :
  - Z.of_nat (length l) ≤ i < 0 →
  getitem l i = getitem l (Z.of_nat (length l) + i).
Proof.
  intros H. unfold getitem.
  rewrite (bool_decide_false (0 ≤ i)) by lia.
  by rewrite !bool_decide_true by lia.
Qed.

Lemma ask_items_one_item (sp : str * (str → option V)) cur line stdin out :
  ask_items [sp] cur (line :: stdin) out
  = match answer sp.2 line with
    | Some v => (inr (PValue v), stdin, out ++ [Ask sp.1])
    | None => (inl (Inner ValueError), stdin, out ++ [Ask sp.1])
    end.
Proof.
  destruct sp as [param to_type]. cbn [ask_items answer fst snd].
  destruct line; [done|]. unfold answer. by destruct (to_type _).
Qed.

Lemma count_None_dicts specs : count_None (one_item (V:=V) <$> specs) = 0%nat.
Proof.
  unfold count_None. induction specs as [|sp specs IH]; [done|].
  cbn [fmap list_fmap]. rewrite filter_cons. by rewrite decide_False.
Qed.

(** The loop of [option] on answers that are all taken. *)
Lemma ask_params_answers specs : ∀ lines vs (seen : list (option V)) rest out,
  answers specs lines = Some vs →
  length lines = length specs →
  ask_params (length specs) (length seen)
    ((PValue <$> seen) ++ (one_item <$> specs)) (lines ++ rest) out
  = (inr ((PValue <$> seen) ++ (PValue <$> vs)), rest,
     out ++ (Ask <$> specs.*1)).
Proof.
  induction specs as [|sp specs IH]; intros lines vs seen rest out Ha Hlen.
  - destruct lines; [|done]. injection Ha as <-. cbn. by rewrite !app_nil_r.
  - destruct lines as [|line lines]; [done|]. cbn [answers] in Ha.
    destruct (answer sp.2 line) as [v|] eqn:Hv; [|done].
    destruct (answers specs lines) as [vs'|] eqn:Hvs; [|done].
    injection Ha as <-. cbn [length ask_params fmap list_fmap].
    rewrite lookup_app_r by (by rewrite length_fmap).
    rewrite length_fmap, Nat.sub_diag. cbn [lookup list_lookup one_item].
    rewrite <- app_comm_cons, ask_items_one_item, Hv.
    replace (<[length seen:=PValue v]>
               ((PValue <$> seen) ++ PDict [sp] :: (one_item <$> specs)))
      with ((PValue <$> (seen ++ [v])) ++ (one_item <$> specs)).
    2:{ rewrite fmap_app, <- app_assoc. cbn.
        replace (length seen) with (length (PValue (V:=V) <$> seen) + 0)%nat
          at 1 by (rewrite length_fmap; lia).
        by rewrite insert_app_r. }
    replace (S (length seen)) with (length (seen ++ [v]))
      by (rewrite length_app; cbn; lia).
    rewrite (IH lines vs') by (done || (cbn in Hlen; lia)).
    rewrite fmap_app, <- !app_assoc. done.
Qed.

(** The loop of [option] up to the first answer that is refused. *)
Lemma ask_params_refused specs1 : ∀ lines1 vs1 sp specs2 bad
    (seen : list (option V)) rest out todo,
  answers specs1 lines1 = Some vs1 →
  length lines1 = length specs1 →
  answer sp.2 bad = None →
  (length specs1 < todo)%nat →
  ask_params todo (length seen)
    ((PValue <$> seen) ++ (one_item <$> (specs1 ++ sp :: specs2)))
    (lines1 ++ bad :: rest) out
  = (inl (Inner ValueError), rest, out ++ (Ask <$> (specs1 ++ [sp]).*1)).
Proof.
  induction specs1 as [|sp1 specs1 IH];
    intros lines1 vs1 sp specs2 bad seen rest out todo Ha Hlen Hbad Htodo.
  - destruct lines1; [|done]. destruct todo as [|todo]; [lia|].
    cbn [ask_params app fmap list_fmap].
    rewrite lookup_app_r by (by rewrite length_fmap).
    rewrite length_fmap, Nat.sub_diag. cbn [lookup list_lookup one_item].
    by rewrite ask_items_one_item, Hbad.
  - destruct lines1 as [|line lines1]; [done|]. cbn [answers] in Ha.
    destruct (answer sp1.2 line) as [v|] eqn:Hv; [|done].
    destruct (answers specs1 lines1) as [vs'|] eqn:Hvs; [|done].
    destruct todo as [|todo]; [lia|].
    cbn [ask_params]. rewrite <- !app_comm_cons. cbn [fmap list_fmap].
    rewrite lookup_app_r by (by rewrite length_fmap).
    rewrite length_fmap, Nat.sub_diag. cbn [lookup list_lookup one_item].
    rewrite ask_items_one_item, Hv.
    replace (<[length seen:=PValue v]>
               ((PValue <$> seen)
                ++ PDict [sp1] :: (one_item <$> (specs1 ++ sp :: specs2))))
      with ((PValue <$> (seen ++ [v]))
            ++ (one_item <$> (specs1 ++ sp :: specs2))).
    2:{ rewrite fmap_app, <- app_assoc. cbn.
        replace (length seen) with (length (PValue (V:=V) <$> seen) + 0)%nat
          at 1 by (rewrite length_fmap; lia).
        by rewrite insert_app_r. }
    replace (S (length seen)) with (length (seen ++ [v]))
      by (rewrite length_app; cbn; lia).
    rewrite (IH lines1 vs') by (done || (cbn in Hlen, Htodo; lia)).
    by rewrite <- !app_assoc.
Qed.

End MenuProperties.

Section MenuTheorems.

Context {St V R Pr : Type}.

Implicit Types (options : list (Entry St V R Pr)) (s : St)
  (specs : list (str * (str → option V))) (stdin lines rest : list str)
  (out : list (Printed R Pr)).

(** X19: [option] with a number that is not an index of the list of options,
    counting from the start or from the end, raises [IndexError] before
    anything is read, printed or run; in the loop of [start] the choice is
    answered by the request to choose a correct item, and nothing else
    happens. *)
Theorem Menu_option_no_such_option options (number : Z) stdin s :
  number < - Z.of_nat (length options) ∨ Z.of_nat (length options) ≤ number →
  Menu_option options number stdin s = (MRaise IndexError, s, stdin, [])
  ∧ ∀ to_int line,
      to_int line = Some (number + 1) →
      Menu_turn to_int options (line :: stdin) s
      = (MReturn tt, s, stdin,
         Menu_show options ++ [AskChoice; ChooseCorrect]).
Proof.
  intros H.
  assert (Menu_option options number stdin s = (MRaise IndexError, s, stdin, []))
    as E by (unfold Menu_option; by rewrite getitem_out_of_range).
  split; [done|]. intros to_int line Hl. unfold Menu_turn. rewrite Hl.
  replace (number + 1 - 1) with number by lia. rewrite E.
  by rewrite <- app_assoc.
Qed.

(** X20: a negative number counts from the end of the list of options, as
    Python's indexing does: [option(-1)] is the last option.  So in the
    loop of [start], where one is taken off the number entered, entering
    [0] runs the last option. *)
Theorem Menu_option_from_the_end options (number : Z) stdin s :
  - Z.of_nat (length options) ≤ number < 0 →
  Menu_option options number stdin s
  = Menu_option options (Z.of_nat (length options) + number) stdin s
  ∧ ∀ to_int line line',
      to_int line = Some (number + 1) →
      to_int line' = Some (Z.of_nat (length options) + number + 1) →
      Menu_turn to_int options (line :: stdin) s
      = Menu_turn to_int options (line' :: stdin) s.
Proof.
  intros H.
  assert (Menu_option options number stdin s
          = Menu_option options (Z.of_nat (length options) + number) stdin s)
    as E by (unfold Menu_option; by rewrite getitem_negative).
  split; [done|]. intros to_int line line' Hl Hl'. unfold Menu_turn.
  rewrite Hl, Hl'.
  replace (number + 1 - 1) with number by lia.
  replace (Z.of_nat (length options) + number + 1 - 1)
    with (Z.of_nat (length options) + number) by lia.
  by rewrite E.
Qed.

(** [option] once the answers are in. *)
Lemma Menu_option_asked options (number : Z) (e : Entry St V R Pr) specs
    lines vs rest s :
  getitem options number = Some e →
  args e = one_item <$> specs →
  arity (action e) = length specs →
  answers specs lines = Some vs →
  length lines = length specs →
  Menu_option options number (lines ++ rest) s
  = match act (action e) (PValue <$> vs) s with
    | (Return r, s', printed) =>
        (MReturn r, s', rest, (Ask <$> specs.*1) ++ (ByAction <$> printed))
    | (Raise err, s', printed) =>
        except_ValueError (Inner err) s' rest
          ((Ask <$> specs.*1) ++ (ByAction <$> printed))
    end.
Proof.
  intros He Hargs Har Ha Hlen. unfold Menu_option.
  rewrite He, Hargs, Har, count_None_dicts. cbv zeta.
  destruct specs as [|sp specs].
  - destruct lines; [|done]. injection Ha as <-. cbn.
    by destruct (act _ _ _) as [[[r|err] s'] printed].
  - rewrite !bool_decide_true by done. cbn [andb].
    rewrite (ask_params_answers (sp :: specs) lines vs [] rest []) by done.
    cbn [app fmap list_fmap].
    by destruct (act _ _ _) as [[[r|err] s'] printed].
Qed.

(** X21: when every answer is a blank line or a text its conversion takes,
    [option] asks the parameters in order, one line each, and calls the
    action once, with the values converted and [None] for the blank lines;
    when the action returns, so does [option], with the action's result and
    the state the action left, and the lines that follow are not read. *)
Theorem Menu_option_answers options (number : Z) (e : Entry St V R Pr) specs
    lines vs rest s (r : option R) (s' : St) (printed : list Pr) :
  getitem options number = Some e →
  args e = one_item <$> specs →
  arity (action e) = length specs →
  answers specs lines = Some vs →
  length lines = length specs →
  act (action e) (PValue <$> vs) s = (Return r, s', printed) →
  Menu_option options number (lines ++ rest) s
  = (MReturn r, s', rest, (Ask <$> specs.*1) ++ (ByAction <$> printed)).
Proof.
  intros He Hargs Har Ha Hlen Hact.
  by rewrite (Menu_option_asked _ _ e specs lines vs), Hact.
Qed.

(** X22: at the first answer that is not blank and that its conversion
    refuses, [option] stops asking, asks to check what was entered and
    returns [None]: the action is not called, the state is as it was, and
    the lines after the refused one are not read. *)
Theorem Menu_option_answer_refused options (number : Z)
    (e : Entry St V R Pr) specs1 (sp : str * (str → option V)) specs2 lines1
    vs1 (bad : str) rest s :
  getitem options number = Some e →
  args e = one_item <$> (specs1 ++ sp :: specs2) →
  arity (action e) = length (specs1 ++ sp :: specs2) →
  answers specs1 lines1 = Some vs1 →
  length lines1 = length specs1 →
  answer sp.2 bad = None →
  Menu_option options number (lines1 ++ bad :: rest) s
  = (MReturn None, s, rest,
     (Ask <$> (specs1 ++ [sp]).*1) ++ [CheckEntered]).
Proof.
  intros He Hargs Har Ha Hlen Hbad. unfold Menu_option.
  rewrite He, Hargs, Har, count_None_dicts. cbv zeta.
  rewrite bool_decide_true by (by destruct specs1).
  rewrite bool_decide_true by (rewrite length_app; cbn; lia).
  cbn [andb].
  rewrite (ask_params_refused specs1 lines1 vs1 sp specs2 bad [] rest [])
    by (done || (rewrite length_app; cbn; lia)).
  done.
Qed.

(** X23: an exception the action raises passes through [option] with the
    state the action left, except [ValueError]: that one is caught, the
    request to check what was entered is printed after what the action
    printed, and [option] returns [None]; what the action did to the state
    before it raised stays done. *)
Theorem Menu_option_action_raises options (number : Z) (e : Entry St V R Pr)
    specs lines vs rest s (err : Exn) (s' : St) (printed : list Pr) :
  getitem options number = Some e →
  args e = one_item <$> specs →
  arity (action e) = length specs →
  answers specs lines = Some vs →
  length lines = length specs →
  act (action e) (PValue <$> vs) s = (Raise err, s', printed) →
  Menu_option options number (lines ++ rest) s
  = match err with
    | ValueError =>
        (MReturn None, s', rest,
         (Ask <$> specs.*1) ++ (ByAction <$> printed) ++ [CheckEntered])
    | _ =>
        (MRaise (Inner err), s', rest,
         (Ask <$> specs.*1) ++ (ByAction <$> printed))
    end.
Proof.
  intros He Hargs Har Ha Hlen Hact.
  rewrite (Menu_option_asked _ _ e specs lines vs), Hact by done.
  destruct err; cbn [except_ValueError]; by rewrite <- ?app_assoc.
Qed.

(** X24: [add_option] puts the option at the end: the options there were
    keep their numbers from the start, the new one takes the next number,
    and [show] lists it last, under that number plus one; without [args]
    the option has none. *)
Theorem add_option_numbers options (text_ : str) (a : Action St V R Pr)
    (params : option (list (Param V))) (number : Z) stdin s :
  (0 ≤ number < Z.of_nat (length options) →
   Menu_option (add_option options text_ a params) number stdin s
   = Menu_option options number stdin s)
  ∧ getitem (add_option options text_ a params)
      (Z.of_nat (length options))
    = Some (mkEntry text_ a (match params with Some l => l | None => [] end))
  ∧ Menu_show (add_option options text_ a params)
    = Menu_show options ++ [Numbered (length options + 1) text_].
Proof.
  unfold add_option. split_and!.
  - intros H. unfold Menu_option, getitem.
    rewrite !bool_decide_true by lia.
    by rewrite lookup_app_l by lia.
  - rewrite getitem_nonneg, lookup_app_r, Nat.sub_diag by done. done.
  - unfold Menu_show. rewrite imap_app. cbn. by rewrite Nat.add_0_r.
Qed.

(** X25: [show] numbers the options from one, and [start] takes one off the
    number entered: entering the number shown beside an option runs that
    option on the lines that follow; when the option returns, its result is
    printed unless it is [None], and the loop goes on. *)
Theorem Menu_turn_runs_the_number_shown options (i : nat)
    (e : Entry St V R Pr) (to_int : str → option Z) (line : str) stdin s
    (r : option R) (s' : St) stdin' out :
  options !! i = Some e →
  to_int line = Some (Z.of_nat i + 1) →
  Menu_option options (Z.of_nat i) stdin s = (MReturn r, s', stdin', out) →
  Menu_show options !! i = Some (Numbered (i + 1) (label e))
  ∧ Menu_turn to_int options (line :: stdin) s
    = (MReturn tt, s', stdin',
       Menu_show options ++ [AskChoice] ++ out
       ++ match r with Some res => [Result res] | None => [] end).
Proof.
  intros He Hl Hopt. split.
  - unfold Menu_show. by rewrite list_lookup_imap, He.
  - unfold Menu_turn. rewrite Hl.
    replace (Z.of_nat i + 1 - 1) with (Z.of_nat i) by lia. rewrite Hopt.
    destruct r; by rewrite <- ?app_assoc, ?app_nil_r.
Qed.

End MenuTheorems.

Lemma Menu_option_no_such_option_witness :
  (2 < - Z.of_nat (length small_menu) ∨ Z.of_nat (length small_menu) ≤ 2)
  ∧ Menu_option small_menu 2 [py "25"] one_income
    = (MRaise IndexError, one_income, [py "25"], []).
Proof.
  assert (2 < - Z.of_nat (length small_menu)
          ∨ Z.of_nat (length small_menu) ≤ 2) as H
    by (right; discriminate).
  split; [exact H|].
  exact (proj1 (Menu_option_no_such_option small_menu 2 [py "25"]
                  one_income H)).
Defined.

Lemma Menu_option_from_the_end_witness :
  - Z.of_nat (length small_menu) ≤ -1 < 0
  ∧ Menu_option small_menu (-1) [py "25"] one_income
    = Menu_option small_menu 1 [py "25"] one_income.
Proof.
  assert (- Z.of_nat (length small_menu) ≤ -1 < 0) as H
    by (split; [discriminate|reflexivity]).
  split; [exact H|].
  exact (proj1 (Menu_option_from_the_end small_menu (-1) [py "25"]
                  one_income H)).
Defined.

Lemma Menu_option_answers_witness :
  answers [(py "amount", numeral)] [py "25"] = Some [Some 25]
  ∧ Menu_option small_menu 1 ([py "25"] ++ [py "1"]) one_income
    = (MReturn (Some (RBool true)),
       mkWallet (data one_income) 125 (stored one_income), [py "1"],
       (Ask <$> [(py "amount", numeral)].*1) ++ (ByAction <$> [])).
Proof.
  split; [reflexivity|].
  by apply (Menu_option_answers small_menu 1
              (mkEntry (py "Pay in") increase_action
                 [one_item (py "amount", numeral)])
              [(py "amount", numeral)] [py "25"] [Some 25]).
Defined.

Lemma Menu_option_answer_refused_witness :
  answer numeral (py "a lot") = None
  ∧ Menu_option small_menu 1 ([] ++ py "a lot" :: [py "1"]) one_income
    = (MReturn None, one_income, [py "1"],
       (Ask <$> ([] ++ [(py "amount", numeral)]).*1) ++ [CheckEntered]).
Proof.
  split; [reflexivity|].
  by apply (Menu_option_answer_refused small_menu 1
              (mkEntry (py "Pay in") increase_action
                 [one_item (py "amount", numeral)])
              [] (py "amount", numeral) [] [] []).
Defined.

Lemma Menu_option_action_raises_witness :
  answers add_entry_prompts
    [INCOME; py "2022-13-45"; py "100"; py "Test income"]
  = Some [Some (AText INCOME); Some (AText (py "2022-13-45"));
          Some (ANumber 100); Some (AText (py "Test income"))]
  ∧ Menu_option entry_menu 0
      ([INCOME; py "2022-13-45"; py "100"; py "Test income"] ++ [py "1"])
      empty_wallet
    = (MReturn None, mkWallet [] 100 None, [py "1"],
       (Ask <$> add_entry_prompts.*1) ++ (ByAction <$> [])
       ++ [CheckEntered])
  ∧ Menu_option small_menu 1 ([[]] ++ [py "1"]) one_income
    = (MRaise (Inner TypeError), one_income, [py "1"],
       (Ask <$> [(py "amount", numeral)].*1) ++ (ByAction <$> [])).
Proof.
  split; [reflexivity|]. split.
  - by apply (Menu_option_action_raises entry_menu 0
                (mkEntry (py "Add an entry") (add_entry_action a_day)
                   (one_item <$> add_entry_prompts))
                add_entry_prompts
                [INCOME; py "2022-13-45"; py "100"; py "Test income"]
                [Some (AText INCOME); Some (AText (py "2022-13-45"));
                 Some (ANumber 100); Some (AText (py "Test income"))]
                [py "1"] empty_wallet ValueError (mkWallet [] 100 None) []).
  - by apply (Menu_option_action_raises small_menu 1
                (mkEntry (py "Pay in") increase_action
                   [one_item (py "amount", numeral)])
                [(py "amount", numeral)] [[]] [None] [py "1"] one_income
                TypeError one_income []).
Defined.

Lemma add_option_numbers_witness :
  0 ≤ 0 < Z.of_nat (length (add_option (St:=Wallet) (V:=Z) (R:=Res)
                              (Pr:=Message) [] (py "Balance")
                              balance_action None))
  ∧ Menu_option small_menu 0 [] one_income
    = Menu_option (add_option [] (py "Balance") balance_action None) 0 []
        one_income.
Proof.
  assert (0 ≤ 0 < Z.of_nat (length (add_option (St:=Wallet) (V:=Z) (R:=Res)
                                      (Pr:=Message) [] (py "Balance")
                                      balance_action None))) as H
    by (split; [discriminate|reflexivity]).
  split; [exact H|].
  exact (proj1 (add_option_numbers
                  (add_option [] (py "Balance") balance_action None)
                  (py "Pay in") increase_action
                  (Some [one_item (py "amount", numeral)]) 0 [] one_income) H).
Defined.

Lemma Menu_turn_runs_the_number_shown_witness :
  numeral (py "1") = Some (Z.of_nat 0 + 1)
  ∧ Menu_turn numeral small_menu (py "1" :: [py "2"]) one_income
    = (MReturn tt, one_income, [py "2"],
       Menu_show small_menu ++ [AskChoice] ++ [] ++ [Result (RNumber 100)]).
Proof.
  split; [reflexivity|].
  by refine (proj2 (Menu_turn_runs_the_number_shown small_menu 0
                      (mkEntry (py "Balance") balance_action []) numeral
                      (py "1") [py "2"] one_income (Some (RNumber 100)) one_income
                      [py "2"] [] _ _ _)).
Defined.
